(** * Inventory management system: the forecasting pipeline and order processing

    A shallow embedding of [model.py] ([prepare_data],
    [train_stock_prediction_model], [predict_stock_needs], [main]) and of the
    handlers [process_orders], [remove_product], [add_product] and the row
    loop of [upload_orders] of [app.py].

    Conventions of the embedding.
    - A Python call either returns or raises: [result A] with [Ok] and [Raise].
    - pandas and json are library code.  A CSV cell of the [line_items] column
      is represented by what [json.loads] makes of it; a decoded payload is a
      JSON array of objects carrying integer [product_id] and [quantity] and,
      optionally, [name] and [price].  A field that is absent from the object
      is [None]; subscripting it raises [KeyError], as in Python.
    - Integer machine arithmetic is modelled: the group sum of pandas is an
      int64 sum and wraps around, and in [process_orders] and [upload_orders]
      sqlite3 refuses to bind an integer that does not fit 64 bits
      ([OverflowError]).
    - Floating point is not modelled.  The mean of a group is the rational
      [total / count] in lowest terms, where pandas holds a float64, and
      [iterrows()] turns every cell of a row of the aggregate table into a
      float64, so the keys and the totals of the mapping [main] returns are
      floats; they are kept as integers here.  The rationals and integers
      agree with the floats of the code as long as float64 is exact on the
      ids and on every partial sum of the quantities (magnitudes below
      [2^53]) and rounds [1.5 * mean] to the same integer part (quantities
      adding up to less than [2^50]); the statements that depend on it carry
      these bounds as hypotheses ([within_magnitude]).  The same holds for
      SQLite, which turns a [stock_level] that leaves the int64 range into a
      REAL.
    - [print] and [traceback.print_exc()] are kept as the list of the
      exceptions reported on the console.
    - The disk is a finite map from paths to files; the database is the
      [products] table, keyed by [product_id], and the rows of [orders]. *)

From Stdlib Require Import ZArith QArith Qround Lia.
From stdpp Require Import base option list sorting gmap strings.

Local Open Scope Z_scope.

(** ** Python outcomes *)

Inductive exn :=
  | FileNotFoundError
  | ParserError
  | UnpicklingError
  | AttributeError
  | KeyError (key : string)
  | TypeError
  | OverflowError
  | JSONDecodeError.

Inductive result (A : Type) :=
  | Ok (a : A)
  | Raise (e : exn).
Arguments Ok {A} a.
Arguments Raise {A} e.

#[global] Instance result_ret : MRet result := λ A a, Ok a.
#[global] Instance result_bind : MBind result := λ A B f m,
  match m with
  | Ok a => f a
  | Raise e => Raise e
  end.
#[global] Instance result_fmap : FMap result := λ A B f m,
  match m with
  | Ok a => Ok (f a)
  | Raise e => Raise e
  end.

(** ** Machine integers *)

(** The signed 64-bit range of numpy's int64 and of an SQLite INTEGER. *)
Definition int64_range (z : Z) : Prop := - 2 ^ 63 ≤ z < 2 ^ 63.

(** An int64 result wraps around modulo [2^64]. *)
Definition int64 (z : Z) : Z := (z + 2 ^ 63) mod 2 ^ 64 - 2 ^ 63.

(** sqlite3 binding a Python integer to a [?] of a statement. *)
Definition bind_int (z : Z) : result Z :=
  if decide (int64_range z) then Ok z else Raise OverflowError.

(** ** Data model *)

(** One element of an order's [line_items] array: a JSON object.  The fields
    [product_id] and [quantity], where present, are JSON integers. *)
Record line_item := LineItem {
  li_product_id : option Z;
  li_quantity : option Z;
  li_name : option string;
  li_price : option Q
}.

(** The text of a [line_items] field, by what [json.loads] does with it:
    it is rejected, or it is a JSON array of objects.  Valid JSON of another
    shape (a number, a string, an object, an array holding anything but
    objects) is not represented. *)
Inductive json_text :=
  | Malformed
  | Payload (items : list line_item).

(** A cell of the [line_items] column as [pd.read_csv] delivers it: a blank
    field is read as a float NaN, anything else as a string. *)
Inductive cell :=
  | Blank
  | Text (t : json_text).

Definition json_loads (t : json_text) : result (list line_item) :=
  match t with
  | Malformed => Raise JSONDecodeError
  | Payload items => Ok items
  end.

(** [json.loads] applied to a cell: a NaN is not a string. *)
Definition loads_cell (c : cell) : result (list line_item) :=
  match c with
  | Blank => Raise TypeError
  | Text t => json_loads t
  end.

(** [item[key]] on a decoded object. *)
Definition subscript {A} (field : line_item → option A) (key : string)
    (item : line_item) : result A :=
  match field item with
  | Some v => Ok v
  | None => Raise (KeyError key)
  end.

(** The orders dataset: the header of the CSV file and, per row, the order id
    and the [line_items] cell (the other columns are not read by the
    pipeline). *)
Record order_row := OrderRow {
  row_order_id : Z;
  row_line_items : cell
}.

Record orders_df := OrdersDf {
  columns : list string;
  rows : list order_row
}.

(** [orders_df['line_items']] *)
Definition line_items_column (df : orders_df) : result (list cell) :=
  if decide ("line_items" ∈ columns df) then Ok (row_line_items <$> rows df)
  else Raise (KeyError "line_items").

(** ** Line-item extraction: the nested loops of [prepare_data] and [main] *)

Definition observation (item : line_item) : result (Z * Z) :=
  product_id ← subscript li_product_id "product_id" item;
  quantity ← subscript li_quantity "quantity" item;
  mret (product_id, quantity).

Definition extract (orders : list (list line_item)) : result (list (Z * Z)) :=
  per_order ← mapM (mapM observation) orders;
  mret (concat per_order).

(** ** Grouping: [product_df.groupby('product_id')]

    Groups are kept sorted by key and each group keeps the row order of the
    frame.  A frame built from an empty list has no columns at all, so the
    group-by raises [KeyError]. *)

Fixpoint group_insert (k q : Z) (gs : list (Z * list Z)) : list (Z * list Z) :=
  match gs with
  | [] => [(k, [q])]
  | (k', qs) :: gs' =>
      if decide (k < k') then (k, [q]) :: gs
      else if decide (k = k') then (k', qs ++ [q]) :: gs'
      else (k', qs) :: group_insert k q gs'
  end.

Definition groups (product_data : list (Z * Z)) : list (Z * list Z) :=
  foldl (λ gs o, group_insert o.1 o.2 gs) [] product_data.

Definition groupby_product_id (product_data : list (Z * Z))
    : result (list (Z * list Z)) :=
  match product_data with
  | [] => Raise (KeyError "product_id")
  | _ => Ok (groups product_data)
  end.

(** The exact total of a list of integers. *)
Definition total (qs : list Z) : Z := foldr Z.add 0 qs.

(** The three aggregations.  The column [quantity] holds int64 values, and
    its group sum is accumulated in int64; the mean is accumulated in
    float64, not derived from the int64 sum. *)
Definition sum (qs : list Z) : Z := foldl (λ acc q, int64 (acc + q)) 0 qs.
Definition count (qs : list Z) : Z := Z.of_nat (length qs).
Definition mean (qs : list Z) : Q := Qred (inject_Z (total qs) / inject_Z (count qs)).

(** ** [main]: the forecast orchestrator *)

Record sales_row := SalesRow {
  product_id : Z;
  total_quantity : Z;
  avg_quantity : Q;
  order_frequency : Z
}.

(** [.agg({'quantity': ['sum', 'mean', 'count']}).reset_index()] *)
Definition agg (gs : list (Z * list Z)) : list sales_row :=
  (λ g, SalesRow g.1 (sum g.2) (mean g.2) (count g.2)) <$> gs.

(** Python's [int] on a number: truncation toward zero. *)
Definition int (x : Q) : Z := Z.quot (Qnum x) (Z.pos (Qden x)).

Record prediction := Prediction {
  p_total_quantity : Z;
  p_avg_quantity : Q;
  p_predicted_stock : Z
}.

Definition predict_row (row : sales_row) : prediction :=
  Prediction (total_quantity row) (avg_quantity row)
             (int (avg_quantity row * (3 # 2))).

(** The loop [for _, row in product_sales.iterrows(): predictions[...] = ...] *)
Definition predict_all (product_sales : list sales_row) : gmap Z prediction :=
  foldl (λ predictions row, <[product_id row := predict_row row]> predictions)
        ∅ product_sales.

(** ** [prepare_data]: features for the learned mode *)

(** A row of the frame [prepare_data] returns; [None] is a NaN. *)
Record prepared_row := PreparedRow {
  pr_product_id : Z;
  pr_quantity : Z;
  pr_avg_order_size : option Q;
  pr_order_frequency : option Z
}.

(** The value a Series holds under an index label. *)
Fixpoint series_get {A} (label : Z) (s : list (Z * A)) : option A :=
  match s with
  | [] => None
  | (l, v) :: s' => if decide (label = l) then Some v else series_get label s'
  end.

(** Lines 36-45 of [prepare_data].  The sums are turned into a frame by
    [reset_index()], whose rows are labelled 0, 1, 2, ...; the means and the
    sizes are Series labelled by product id.  Assigning a Series to a column
    of a frame aligns it on the labels of the frame: row [i] receives the
    value the Series holds under label [i], or NaN when it has none. *)
Definition prepare_aggregate (product_data : list (Z * Z))
    : result (list prepared_row) :=
  gs ← groupby_product_id product_data;
  let product_sales := (λ g, (g.1, sum g.2)) <$> gs in
  let avg_order_size := (λ g, (g.1, mean g.2)) <$> gs in
  let order_frequency := (λ g, (g.1, count g.2)) <$> gs in
  mret (imap (λ i row, PreparedRow row.1 row.2
                         (series_get (Z.of_nat i) avg_order_size)
                         (series_get (Z.of_nat i) order_frequency))
             product_sales).

Definition prepare_data (df : orders_df) : result (list prepared_row) :=
  cells ← line_items_column df;
  parsed ← mapM loads_cell cells;
  product_data ← extract parsed;
  prepare_aggregate product_data.

(** ** Files on disk *)

(** A fitted scaler and a fitted regressor, by what their methods return. *)
Record fitted_scaler := FittedScaler {
  transform : list prepared_row → result (list (list Q))
}.

Record fitted_model := FittedModel {
  predict : list (list Q) → result (list Q);
  score : list (list Q) → list Z → result Q
}.

(** What a pickle file holds. *)
Inductive pyobj :=
  | Scaler (s : fitted_scaler)
  | Model (m : fitted_model).

(** A file is a CSV table, a pickle, or something that is neither. *)
Inductive file :=
  | CsvFile (df : orders_df)
  | Pickle (o : pyobj)
  | Binary.

(** What [main] can read and write: the disk and the console. *)
Record world := World {
  files : gmap string file;
  console : list exn
}.

(** [pd.read_csv]: the file must exist and parse as a table. *)
Definition read_csv (fs : gmap string file) (path : string) : result orders_df :=
  match fs !! path with
  | None => Raise FileNotFoundError
  | Some (CsvFile df) => Ok df
  | Some _ => Raise ParserError
  end.

(** Lines 139-145 of [main]: group the observations and aggregate. *)
Definition aggregate (product_data : list (Z * Z)) : result (list sales_row) :=
  gs ← groupby_product_id product_data;
  mret (agg gs).

(** The aggregation stage of [main] on a loaded frame. *)
Definition product_sales_of (df : orders_df) : result (list sales_row) :=
  cells ← line_items_column df;
  parsed ← mapM loads_cell cells;
  product_data ← extract parsed;
  aggregate product_data.

(** The body of the [try] block of [main]. *)
Definition main_try (fs : gmap string file) (orders_file : string)
    : result (gmap Z prediction) :=
  df ← read_csv fs orders_file;
  product_sales ← product_sales_of df;
  mret (predict_all product_sales).

(** [main]: whatever the [try] block raises is printed and [{}] is returned. *)
Definition main (w : world) (orders_file : string)
    : result (gmap Z prediction) * world :=
  match main_try (files w) orders_file with
  | Ok predictions => (Ok predictions, w)
  | Raise e => (Ok ∅, World (files w) (console w ++ [e]))
  end.

(** A line item with the two required fields only. *)
Definition item (pid q : Z) : line_item := LineItem (Some pid) (Some q) None None.

(** The columns of an orders file. *)
Definition orders_header : list string :=
  ["order_id"; "order_date"; "customer_email"; "total_amount"; "status";
   "line_items"].

(** The dataset of the end-to-end example of the specification. *)
Definition example_df : orders_df :=
  OrdersDf orders_header
    [OrderRow 1 (Text (Payload [item 1 10]));
     OrderRow 2 (Text (Payload [item 1 20; item 2 5]))].

(** ** Vocabulary of the statements *)

(** The quantities observed for product [k], in row order. *)
Definition quantities_of (k : Z) (product_data : list (Z * Z)) : list Z :=
  (filter (λ o, o.1 = k) product_data).*2.

(** The group stored under key [k] (empty when there is none). *)
Fixpoint group (k : Z) (gs : list (Z * list Z)) : list Z :=
  match gs with
  | [] => []
  | (k', qs) :: gs' => if decide (k = k') then qs else group k gs'
  end.

Definition sorted_keys (gs : list (Z * list Z)) : Prop :=
  StronglySorted Z.lt gs.*1.

(** ** The dataset as the specification speaks of it *)

(** All line items of the dataset, order by order; a row whose cell does not
    decode contributes none. *)
Definition row_items (r : order_row) : list line_item :=
  match row_line_items r with
  | Text (Payload items) => items
  | _ => []
  end.

Definition dataset_items (df : orders_df) : list line_item :=
  rows df ≫= row_items.

(** The line items of product [pid], dataset-wide. *)
Definition items_of (pid : Z) (df : orders_df) : list line_item :=
  filter (λ it, li_product_id it = Some pid) (dataset_items df).

(** The exact sum of the quantities of the line items of [pid]. *)
Definition quantity_total (pid : Z) (df : orders_df) : Z :=
  total (omap li_quantity (items_of pid df)).

(** Number of line-item occurrences of [pid]. *)
Definition occurrences (pid : Z) (df : orders_df) : Z :=
  Z.of_nat (length (items_of pid df)).

(** The mean line-item quantity of [pid]: the number of which the
    [avg_quantity] of the code is the nearest float64. *)
Definition mean_quantity (pid : Z) (df : orders_df) : Q :=
  inject_Z (quantity_total pid df) / inject_Z (occurrences pid df).

(** Every order decodes and every line item carries both required fields. *)
Definition complete (it : line_item) : bool :=
  bool_decide (is_Some (li_product_id it)) && bool_decide (is_Some (li_quantity it)).

Definition decodes (c : cell) : bool :=
  match c with
  | Text (Payload items) => forallb complete items
  | _ => false
  end.

Definition well_formed (df : orders_df) : bool :=
  bool_decide ("line_items" ∈ columns df)
  && forallb (λ r, decodes (row_line_items r)) (rows df).

(** A line item and the observation the extractor makes of it. *)
Definition observed (it : line_item) (o : Z * Z) : Prop :=
  li_product_id it = Some o.1 ∧ li_quantity it = Some o.2.

(** ** Magnitudes

    The sum of the absolute values of the quantities of a list of line items:
    a bound on every partial sum of the quantities of every product. *)
Definition volume (items : list line_item) : Z :=
  total (Z.abs <$> omap li_quantity items).

(** A dataset all of whose product ids are below [2^53] in absolute value,
    whose quantities have absolute values adding up to less than [bound], and
    which has fewer than [2^53] line items.  With [bound] at most [2^53] a
    float64 holds every id, every count and every partial sum of quantities
    exactly, and no int64 sum wraps around. *)
Definition within_magnitude (bound : Z) (df : orders_df) : bool :=
  forallb (λ it, bool_decide (Z.abs (default 0 (li_product_id it)) < 2 ^ 53))
          (dataset_items df)
  && bool_decide (volume (dataset_items df) < bound)
  && bool_decide (Z.of_nat (length (dataset_items df)) < 2 ^ 53).

(** ** Example datasets *)

(** One order listing product 7 twice. *)
Definition twice_in_one_order : orders_df :=
  OrdersDf orders_header [OrderRow 1 (Text (Payload [item 7 2; item 7 4]))].

(** A disk holding [orders.csv] with a single order. *)
Definition one_order (items : list line_item) : gmap string file :=
  {["orders.csv" := CsvFile (OrdersDf orders_header [OrderRow 1 (Text (Payload items))])]}.

(** The dataset of the malformed-row scenario: order 1 is sound, the
    [line_items] of order 2 are not JSON. *)
Definition one_malformed_df : orders_df :=
  OrdersDf orders_header
    [OrderRow 1 (Text (Payload [item 1 10])); OrderRow 2 (Text Malformed)].

Definition malformed_removed_df : orders_df :=
  OrdersDf orders_header [OrderRow 1 (Text (Payload [item 1 10]))].

(** One order listing product 1 three times, with a quantity of [2^62] each
    time: every quantity fits int64, their sum does not. *)
Definition three_large_items : orders_df :=
  OrdersDf orders_header
    [OrderRow 1 (Text (Payload [item 1 (2 ^ 62); item 1 (2 ^ 62); item 1 (2 ^ 62)]))].

(** A file with the header and no order. *)
Definition empty_orders_file : gmap string file :=
  {["orders.csv" := CsvFile (OrdersDf orders_header [])]}.

(** The observations of the end-to-end example: product 1 ordered twice
    (10 and 20), product 2 once (5). *)
Definition example_observations : list (Z * Z) := [(1, 10); (1, 20); (2, 5)].

(** ** [predict_stock_needs]: the learned mode *)

(** [joblib.load]: the file must exist and hold a pickled object. *)
Definition joblib_load (fs : gmap string file) (path : string) : result pyobj :=
  match fs !! path with
  | None => Raise FileNotFoundError
  | Some (Pickle o) => Ok o
  | Some _ => Raise UnpicklingError
  end.

(** Method calls on whatever object was unpickled. *)
Definition call_transform (o : pyobj) (X : list prepared_row)
    : result (list (list Q)) :=
  match o with
  | Scaler s => transform s X
  | Model _ => Raise AttributeError
  end.

Definition call_predict (o : pyobj) (X : list (list Q)) : result (list Q) :=
  match o with
  | Model m => predict m X
  | Scaler _ => Raise AttributeError
  end.

Definition call_score (o : pyobj) (X : list (list Q)) (y : list Z) : result Q :=
  match o with
  | Model m => score m X y
  | Scaler _ => Raise AttributeError
  end.

Record stock_prediction := StockPrediction {
  sp_avg_quantity : option Q;
  sp_predicted_stock : Q;
  sp_confidence : Q
}.

(** [new_data] is a frame: its rows under their index labels. *)
Definition predict_stock_needs (fs : gmap string file)
    (new_data : list (Z * prepared_row)) : result (gmap Z stock_prediction) :=
  model ← joblib_load fs "stock_prediction_model.pkl";
  scaler ← joblib_load fs "stock_scaler.pkl";
  new_data_scaled ← call_transform scaler new_data.*2;
  predictions ← call_predict model new_data_scaled;
  confidence ← call_score model new_data_scaled (pr_quantity <$> new_data.*2);
  mret (foldl (λ stock_predictions e,
                 <[e.1.1 := StockPrediction (pr_avg_order_size e.1.2) e.2 confidence]>
                   stock_predictions)
              ∅ (zip new_data predictions)).

Definition constant_model : fitted_model :=
  FittedModel (λ X, Ok ((λ _, 1%Q) <$> X)) (λ _ _, Ok 1%Q).

Definition identity_scaler : fitted_scaler :=
  FittedScaler (λ X, Ok ((λ r, [inject_Z (pr_quantity r)]) <$> X)).

(** ** [process_orders]: stock deduction *)

(** The two tables ([product_id] and [order_id] are primary keys; the rows of
    [orders] are kept in the order [SELECT *] returns them). *)
Record product := Product {
  name : string;
  price : Q;
  stock_level : Z
}.

Record order := Order {
  order_id : Z;
  order_date : string;
  customer_email : string;
  total_amount : Q;
  status : string;
  line_items : json_text
}.

Record database := Database {
  products : gmap Z product;
  orders : list order
}.

Inductive flash :=
  | InvalidJSON (order_id : Z)
  | OrdersProcessed.

(** [foldM]: a [for] loop whose body may raise. *)
Fixpoint foldM {A B} (f : A → B → result A) (a : A) (l : list B) : result A :=
  match l with
  | [] => Ok a
  | x :: l' => a' ← f a x; foldM f a' l'
  end.

(** [UPDATE products SET stock_level = stock_level - ? WHERE product_id = ?],
    once its two parameters are bound. *)
Definition deduct (quantity product_id : Z) (ps : gmap Z product)
    : gmap Z product :=
  alter (λ p, Product (name p) (price p) (stock_level p - quantity)) product_id ps.

(** The body of [for item in items].  The parameters of the [UPDATE] and of
    the [INSERT] are bound by sqlite3, which raises [OverflowError] on an
    integer outside the int64 range. *)
Definition process_item (ps : gmap Z product) (item : line_item)
    : result (gmap Z product) :=
  product_id ← subscript li_product_id "product_id" item;
  quantity ← subscript li_quantity "quantity" item;
  quantity ← bind_int quantity;
  product_id ← bind_int product_id;
  let ps := deduct quantity product_id ps in
  match ps !! product_id with
  | Some _ => Ok ps
  | None =>
      item_name ← subscript li_name "name" item;
      item_price ← subscript li_price "price" item;
      stock ← bind_int (- quantity);
      Ok (<[product_id := Product item_name item_price stock]> ps)
  end.

(** [UPDATE orders SET status = 'completed' WHERE order_id = ?] *)
Definition set_completed (id : Z) (o : order) : order :=
  if decide (order_id o = id)
  then Order (order_id o) (order_date o) (customer_email o)
             (total_amount o) "completed" (line_items o)
  else o.

Definition complete_order (id : Z) (os : list order) : list order :=
  set_completed id <$> os.

(** The body of [for order in orders]: an order whose [line_items] are not
    JSON is flashed and skipped. *)
Definition process_order (st : database * list flash) (o : order)
    : result (database * list flash) :=
  match json_loads (line_items o) with
  | Raise JSONDecodeError => Ok (st.1, st.2 ++ [InvalidJSON (order_id o)])
  | Raise e => Raise e
  | Ok items =>
      ps ← foldM process_item (products st.1) items;
      Ok (Database ps (complete_order (order_id o) (orders st.1)), st.2)
  end.

(** [SELECT * FROM orders WHERE status != 'completed'] *)
Definition pending (db : database) : list order :=
  filter (λ o, status o ≠ "completed") (orders db).

(** The handler up to [conn.commit()]: the new contents of the database and
    the flashed messages. *)
Definition process_orders (db : database) : result (database * list flash) :=
  st ← foldM process_order (db, []) (pending db);
  Ok (st.1, st.2 ++ [OrdersProcessed]).


Definition new_order (id : Z) (st : string) (t : json_text) : order :=
  Order id "2024-01-01" "a@b.c" 0%Q st t.

Definition shop : database :=
  Database {[1 := Product "widget" (2 # 1) 5]}
           [new_order 1 "pending" (Payload [item 1 7; LineItem (Some 2) (Some 3) (Some "gadget") (Some (9 # 1))]);
            new_order 2 "pending" Malformed;
            new_order 3 "completed" (Payload [item 1 100])].

(** The line items [process_orders] works through: those of the pending
    orders whose [line_items] decode. *)
Definition order_items (o : order) : list line_item :=
  match line_items o with
  | Payload items => items
  | Malformed => []
  end.

Definition pending_items (db : database) : list line_item :=
  pending db ≫= order_items.

(** The quantity to deduct from product [pid] in this request. *)
Definition deducted (pid : Z) (items : list line_item) : Z :=
  total (omap li_quantity (filter (λ it, li_product_id it = Some pid) items)).


(** The line items are handled in turn: each names its product and its
    quantity, and carries a name and a price unless its product has a record
    by the time the item is reached, be it from the table as it was ([known]
    starts as the ids of the table) or from an earlier line item of the
    request. *)
Fixpoint handled_in_turn (known : gset Z) (items : list line_item) : bool :=
  match items with
  | [] => true
  | it :: items' =>
      match li_product_id it, li_quantity it with
      | Some pid, Some _ =>
          (bool_decide (pid ∈ known)
           || (bool_decide (is_Some (li_name it)) && bool_decide (is_Some (li_price it))))
          && handled_in_turn ({[pid]} ∪ known) items'
      | _, _ => false
      end
  end.





(** What [complete_order] does to one row. *)
Definition completed_by (ids : list Z) (o o' : order) : Prop :=
  order_id o' = order_id o
  ∧ line_items o' = line_items o
  ∧ (status o = "completed" → status o' = "completed")
  ∧ (order_id o ∈ ids → status o' = "completed").

(** The ids of the orders of a batch that decode. *)
Definition is_json (t : json_text) : bool :=
  match t with
  | Payload _ => true
  | Malformed => false
  end.

Definition decoded_ids (os : list order) : list Z :=
  order_id <$> filter (λ o, is_json (line_items o)) os.

(** A pending order with two line items for product 9, which has no record:
    the first carries a name and a price, the second does not. *)
Definition restock_shop : database :=
  Database ∅
    [new_order 1 "pending"
       (Payload [LineItem (Some 9) (Some 2) (Some "nut") (Some (1 # 1)); item 9 3])].


(** ** Vocabulary of the further properties *)

(** The observations a list of sound line items gives rise to. *)
Definition observations (items : list line_item) : list (Z * Z) :=
  omap (λ it, pid ← li_product_id it; q ← li_quantity it; Some (pid, q)) items.


(** ** A frame held in memory

    [prepare_data] writes the decoded lists back into the [line_items] column
    of the frame it is given.  A cell of that column is either still as it
    was read from the file or the list an earlier call left there. *)
Inductive frame_cell :=
  | FromCsv (c : cell)
  | Decoded (items : list line_item).

Record frame := Frame {
  frame_columns : list string;
  frame_cells : list frame_cell
}.

(** [json.loads] on a cell of a frame: a list is not a string. *)
Definition loads_frame_cell (fc : frame_cell) : result (list line_item) :=
  match fc with
  | FromCsv c => loads_cell c
  | Decoded _ => Raise TypeError
  end.

(** The frame [pd.read_csv] builds from a dataset. *)
Definition frame_of (df : orders_df) : frame :=
  Frame (columns df) (FromCsv <$> (row_line_items <$> rows df)).

(** [prepare_data] with the frame it mutates: the column is assigned once
    every cell has been decoded, before anything else can raise. *)
Definition prepare_data_inplace (f : frame) : result (list prepared_row) * frame :=
  if decide ("line_items" ∈ frame_columns f) then
    match mapM loads_frame_cell (frame_cells f) with
    | Raise e => (Raise e, f)
    | Ok parsed =>
        (product_data ← extract parsed; prepare_aggregate product_data,
         Frame (frame_columns f) (Decoded <$> parsed))
    end
  else (Raise (KeyError "line_items"), f).

(** ** [train_stock_prediction_model]

    scikit-learn is library code: the random split, the fitting of the
    scaler and the fitting of the forest are parameters, each of which may
    raise.  [X] are the columns [avg_order_size] and [order_frequency], [y]
    is the column [quantity]. *)
Section Training.
Variable train_test_split :
  list (option Q * option Z) → list Z →
  result (list (option Q * option Z) * list Z).
Variable fit_transform :
  list (option Q * option Z) → result (fitted_scaler * list (list Q)).
Variable fit : list (list Q) → list Z → result fitted_model.

Definition train_stock_prediction_model (fs : gmap string file)
    (data : list prepared_row) : result (fitted_model * gmap string file) :=
  let X := (λ r, (pr_avg_order_size r, pr_order_frequency r)) <$> data in
  let y := pr_quantity <$> data in
  train ← train_test_split X y;
  scaled ← fit_transform train.1;
  model ← fit scaled.2 train.2;
  let fs := <["stock_prediction_model.pkl" := Pickle (Model model)]> fs in
  let fs := <["stock_scaler.pkl" := Pickle (Scaler scaled.1)]> fs in
  Ok (model, fs).
End Training.

(** The disk a training from an empty disk leaves behind, for a fit that
    yields [constant_model] and [identity_scaler]. *)
Definition trained_disk : gmap string file :=
  <["stock_scaler.pkl" := Pickle (Scaler identity_scaler)]>
    (<["stock_prediction_model.pkl" := Pickle (Model constant_model)]> ∅).

(** The flashes [process_orders] owes to a batch: one per order whose
    [line_items] are not JSON. *)
Definition invalid_json_flashes (batch : list order) : list flash :=
  (λ o, InvalidJSON (order_id o)) <$> filter (λ o, negb (is_json (line_items o))) batch.

(** Every product of [ps] is still there in [ps'], under its name and at its
    price. *)
Definition keeps_products (ps ps' : gmap Z product) : Prop :=
  ∀ k p, ps !! k = Some p →
    ∃ p', ps' !! k = Some p' ∧ name p' = name p ∧ price p' = price p.

(** [shop] after its pending orders have been processed. *)
Definition shop_processed : database :=
  Database {[1 := Product "widget" (2 # 1) (-2); 2 := Product "gadget" (9 # 1) (-3)]}
           [new_order 1 "completed" (Payload [item 1 7; LineItem (Some 2) (Some 3) (Some "gadget") (Some (9 # 1))]);
            new_order 2 "pending" Malformed;
            new_order 3 "completed" (Payload [item 1 100])].


(** ** The forms of [app.py]

    [request.form] is a finite map from field names to texts.  Python's [int]
    and [float] on a text are the interpreter's: they are parameters, [None]
    standing for [ValueError]; [float] is taken to yield the rational the
    float holds. *)

(** The messages the form handlers flash. *)
Inductive notice :=
  | ProductIdRequired
  | InvalidProductId
  | NoProductFound (product_id : Z)
  | ProductRemoved (product_name : string)
  | AllFieldsRequired
  | InvalidNumber
  | ProductExists (product_name : string)
  | ProductAdded (product_name : string)
  | MissingFields (order_id : Z)
  | InvalidLineItems (order_id : Z)
  | OrderExists (order_id : Z)
  | OrdersUploaded.




Section Forms.
Variable int_of_text : string → option Z.

End Forms.

(** ** The row loop of [upload_orders]

    A row of the uploaded frame.  Its [line_items] cell may be blank (a NaN);
    the other cells are taken as present and of the type of their column. *)
Record upload_row := UploadRow {
  up_order_id : Z;
  up_order_date : string;
  up_customer_email : string;
  up_total_amount : Q;
  up_status : string;
  up_line_items : cell
}.

(** [all([...])]: 0, 0.0 and the empty string are false.  The [line_items]
    cell is true whether it is a text or blank (a NaN is true), so it does
    not count. *)
Definition all_fields (row : upload_row) : bool :=
  bool_decide (up_order_id row ≠ 0)
  && bool_decide (up_order_date row ≠ "")
  && bool_decide (up_customer_email row ≠ "")
  && bool_decide (Qnum (up_total_amount row) ≠ 0)
  && bool_decide (up_status row ≠ "").

(** [INSERT INTO orders]: [order_id] is the rowid, and [SELECT *] lists the
    rows by rowid. *)
Fixpoint insert_order (o : order) (os : list order) : list order :=
  match os with
  | [] => [o]
  | o' :: os' =>
      if decide (order_id o < order_id o') then o :: os
      else o' :: insert_order o os'
  end.

(** The body of [for _, row in data.iterrows()].  The duplicate check
    [SELECT 1 FROM orders WHERE order_id = ?] binds the order id outside any
    handler; the [INSERT] that follows binds the same id inside one. *)
Definition upload_order_row (st : list order * list notice) (row : upload_row)
    : result (list order * list notice) :=
  if all_fields row then
    match loads_cell (up_line_items row) with
    | Raise JSONDecodeError =>
        Ok (st.1, st.2 ++ [InvalidLineItems (up_order_id row)])
    | Raise e => Raise e
    | Ok items =>
        id ← bind_int (up_order_id row);
        if decide (id ∈ order_id <$> st.1)
        then Ok (st.1, st.2 ++ [OrderExists id])
        else Ok (insert_order
                   (Order id (up_order_date row)
                          (up_customer_email row) (up_total_amount row)
                          (up_status row) (Payload items))
                   st.1,
                 st.2)
    end
  else Ok (st.1, st.2 ++ [MissingFields (up_order_id row)]).

(** The loop, the commit and the final flash of [upload_orders]. *)
Definition upload_order_rows (db : database) (data : list upload_row)
    : result (database * list notice) :=
  st ← foldM upload_order_row (orders db, []) data;
  Ok (Database (products db) st.1, st.2 ++ [OrdersUploaded]).

(** Every order of the table has [line_items] that decode. *)
Definition all_json (os : list order) : Prop :=
  Forall (λ o, is_json (line_items o)) os.

(** An upload file: a sound new order, an order that is already in [shop], an
    order whose [line_items] are not JSON and an order without a date. *)
Definition upload_example : list upload_row :=
  [UploadRow 7 "2024-02-01" "c@d.e" (5 # 1) "pending" (Text (Payload [item 1 1]));
   UploadRow 1 "2024-02-01" "c@d.e" (5 # 1) "pending" (Text (Payload [item 1 1]));
   UploadRow 8 "2024-02-01" "c@d.e" (5 # 1) "pending" (Text Malformed);
   UploadRow 9 "" "c@d.e" (5 # 1) "pending" (Text (Payload [item 1 1]))].

Definition shop_uploaded : database :=
  Database (products shop)
           (orders shop
            ++ [Order 7 "2024-02-01" "c@d.e" (5 # 1) "pending" (Payload [item 1 1])]).

(** A table all of whose orders decode, before and after the upload of an
    order 7 and after the processing that follows. *)
Definition clean_shop : database :=
  Database (products shop) [new_order 3 "completed" (Payload [item 1 100])].

Definition shop_uploaded_clean : database :=
  Database (products shop)
           [new_order 3 "completed" (Payload [item 1 100]);
            Order 7 "2024-02-01" "c@d.e" (5 # 1) "pending" (Payload [item 1 1])].

Definition shop_uploaded_processed : database :=
  Database {[1 := Product "widget" (2 # 1) 4]}
           [new_order 3 "completed" (Payload [item 1 100]);
            Order 7 "2024-02-01" "c@d.e" (5 # 1) "completed" (Payload [item 1 1])].

(** ** [add_product] *)

(** [SELECT * FROM products WHERE name = ?] finds a row. *)
Definition name_taken (product_name : string) (ps : gmap Z product) : bool :=
  bool_decide (product_name ∈ (λ kp, name kp.2) <$> map_to_list ps).

(** The rowid SQLite gives to a row inserted without a [product_id]: 1 in an
    empty table, one more than the largest rowid in use otherwise. *)
Definition next_rowid (ps : gmap Z product) : Z :=
  match (map_to_list ps).*1 with
  | [] => 1
  | k :: ks => foldr Z.max k ks + 1
  end.

(** No two products of the table share a name. *)
Definition names_distinct (ps : gmap Z product) : Prop :=
  ∀ i j p q, ps !! i = Some p → ps !! j = Some q → name p = name q → i = j.

Section ProductForm.
Variable int_of_text : string → option Z.
Variable float_of_text : string → option Q.

(** A form field that is there and not empty. *)
Definition field (form : gmap string string) (key : string) : option string :=
  match form !! key with
  | Some text => if decide (text = "") then None else Some text
  | None => None
  end.

Definition add_product (form : gmap string string) (db : database)
    : database * list notice :=
  match field form "product_name", field form "price", field form "stock_level" with
  | Some product_name, Some price_text, Some stock_text =>
      match float_of_text price_text, int_of_text stock_text with
      | Some product_price, Some stock =>
          if name_taken product_name (products db)
          then (db, [ProductExists product_name])
          else (Database (<[next_rowid (products db) :=
                             Product product_name product_price stock]> (products db))
                         (orders db),
                [ProductAdded product_name])
      | _, _ => (db, [InvalidNumber])
      end
  | _, _, _ => (db, [AllFieldsRequired])
  end.
End ProductForm.

(** * Properties *)

(** The end-to-end example of the specification: product 1 totals 30,
    averages 15 and gets 22; product 2 totals 5, averages 5 and gets 7. *)
Example main_example :
  (main (World {["orders.csv" := CsvFile example_df]} []) "orders.csv").1
  = Ok (<[1 := Prediction 30 (15 # 1) 22]> (<[2 := Prediction 5 (5 # 1) 7]> ∅)).
Proof. vm_compute. reflexivity. Qed.

(** ** Grouping *)

Lemma group_absent k gs : Forall (Z.lt k) gs.*1 → group k gs = [].
Proof.
  induction gs as [|[k' qs] gs IH]; simpl; [done|].
  intros H. apply Forall_cons in H as [Hk H].
  destruct (decide (k = k')); [lia|auto].
Qed.

Lemma group_insert_keys k q gs k' :
  k' ∈ (group_insert k q gs).*1 ↔ k' = k ∨ k' ∈ gs.*1.
Proof.
  induction gs as [|[k0 qs] gs IH]; simpl.
  - rewrite list_elem_of_singleton, elem_of_nil. tauto.
  - repeat case_decide; simpl; rewrite ?elem_of_cons; simpl.
    + tauto.
    + subst. tauto.
    + rewrite IH. tauto.
Qed.

Lemma group_insert_sorted k q gs :
  sorted_keys gs → sorted_keys (group_insert k q gs).
Proof.
  unfold sorted_keys.
  induction gs as [|[k0 qs] gs IH]; simpl; intros Hs.
  - repeat constructor.
  - apply StronglySorted_inv in Hs as [Hs Hall].
    repeat case_decide; simpl.
    + constructor; [by constructor|].
      constructor; [done|].
      eapply Forall_impl; [exact Hall|]. simpl. intros; lia.
    + by constructor.
    + constructor; [auto|].
      apply Forall_forall. intros k' Hk'.
      apply group_insert_keys in Hk' as [->|Hk']; [lia|].
      by eapply Forall_forall in Hall.
Qed.

Lemma group_insert_same k q gs :
  sorted_keys gs → group k (group_insert k q gs) = group k gs ++ [q].
Proof.
  unfold sorted_keys.
  induction gs as [|[k0 qs] gs IH]; simpl; intros Hs.
  - by rewrite decide_True.
  - apply StronglySorted_inv in Hs as [Hs Hall].
    repeat case_decide; simpl; repeat case_decide; try done; try lia.
    + rewrite group_absent; [done|].
      eapply Forall_impl; [exact Hall|]. simpl. intros; lia.
    + auto.
Qed.

Lemma group_insert_other k q gs k' :
  k' ≠ k → group k' (group_insert k q gs) = group k' gs.
Proof.
  intros Hne.
  induction gs as [|[k0 qs] gs IH]; simpl.
  - by rewrite decide_False.
  - repeat case_decide; simpl; repeat case_decide; subst; try done.
Qed.

Lemma groups_snoc product_data o :
  groups (product_data ++ [o]) = group_insert o.1 o.2 (groups product_data).
Proof. unfold groups. by rewrite foldl_app. Qed.

Lemma quantities_of_snoc k product_data o :
  quantities_of k (product_data ++ [o])
  = quantities_of k product_data ++ (if decide (o.1 = k) then [o.2] else []).
Proof.
  unfold quantities_of. rewrite filter_app, fmap_app. f_equal.
  rewrite filter_cons, filter_nil. by case_decide.
Qed.

Lemma groups_sorted product_data : sorted_keys (groups product_data).
Proof.
  induction product_data as [|o l IH] using rev_ind.
  - constructor.
  - rewrite groups_snoc. by apply group_insert_sorted.
Qed.

Lemma groups_keys product_data k :
  k ∈ (groups product_data).*1 ↔ k ∈ product_data.*1.
Proof.
  induction product_data as [|o l IH] using rev_ind.
  - done.
  - rewrite groups_snoc, group_insert_keys, IH, fmap_app, elem_of_app.
    simpl. rewrite list_elem_of_singleton. tauto.
Qed.

Lemma groups_group product_data k :
  group k (groups product_data) = quantities_of k product_data.
Proof.
  induction product_data as [|o l IH] using rev_ind.
  - done.
  - rewrite groups_snoc, quantities_of_snoc.
    case_decide as Hk.
    + subst k. rewrite group_insert_same by apply groups_sorted. by rewrite IH.
    + rewrite group_insert_other by done. by rewrite IH, app_nil_r.
Qed.

Lemma sorted_keys_NoDup gs : sorted_keys gs → NoDup gs.*1.
Proof.
  unfold sorted_keys. induction 1 as [|k ks Hs IH Hall]; constructor; [|done].
  intros Hin. eapply Forall_forall in Hall; [|exact Hin]. lia.
Qed.

Lemma group_elem_of gs k qs :
  NoDup gs.*1 → (k, qs) ∈ gs → group k gs = qs.
Proof.
  induction gs as [|[k0 qs0] gs IH]; simpl; intros Hnd Hin.
  - by apply elem_of_nil in Hin.
  - apply NoDup_cons in Hnd as [Hk0 Hnd].
    apply elem_of_cons in Hin as [Heq|Hin].
    + injection Heq as -> ->. by rewrite decide_True.
    + case_decide as Hk; [|auto]. subst k0. destruct Hk0.
      apply list_elem_of_fmap. by exists (k, qs).
Qed.

(** Every group of [groups] is the full list of the quantities observed for
    its key, and only observed keys have a group. *)
Lemma groups_elem_of product_data k qs :
  (k, qs) ∈ groups product_data →
  qs = quantities_of k product_data ∧ k ∈ product_data.*1.
Proof.
  intros Hin. split.
  - rewrite <- groups_group. symmetry.
    apply group_elem_of; [|done].
    apply sorted_keys_NoDup, groups_sorted.
  - apply groups_keys. apply list_elem_of_fmap. by exists (k, qs).
Qed.

(** ** [mapM] in the [result] monad *)

Lemma mapM_Ok {A B} (f : A → result B) l k :
  mapM f l = Ok k ↔ Forall2 (λ x y, f x = Ok y) l k.
Proof.
  revert k. induction l as [|x l IH]; intros k; simpl.
  - split; [intros [= <-]; constructor | by inversion 1].
  - unfold mbind, result_bind at 1. destruct (f x) as [y|e] eqn:Hx.
    + destruct (mapM f l) as [k'|e] eqn:Hl; simpl.
      * split.
        -- intros [= <-]. constructor; [done|]. by apply IH.
        -- inversion 1 as [|???? Hy Hk]; subst. rewrite Hx in Hy.
           injection Hy as <-. apply IH in Hk. by injection Hk as <-.
      * split; [done|].
        inversion 1 as [|???? Hy Hk]; subst. by apply IH in Hk.
    + split; [done|]. inversion 1 as [|???? Hy Hk]; subst. congruence.
Qed.

Lemma mapM_Raise {A B} (f : A → result B) l x e :
  x ∈ l → f x = Raise e → ∃ e', mapM f l = Raise e'.
Proof.
  intros Hin Hx. induction l as [|y l IH]; [by apply elem_of_nil in Hin|].
  simpl. unfold mbind, result_bind at 1.
  apply elem_of_cons in Hin as [<-|Hin].
  - rewrite Hx. eauto.
  - destruct (f y); [|eauto]. destruct (IH Hin) as [e' ->]. simpl. eauto.
Qed.

(** ** From the dataset to the flat observations *)

Lemma observation_Ok it o : observation it = Ok o ↔ observed it o.
Proof.
  unfold observation, observed, subscript. destruct it as [[pid|] [q|] nm pr]; simpl.
  - destruct o as [pid' q']. split; [intros [= <- <-]; done|].
    simpl. intros [[= ->] [= ->]]. done.
  - split; [done|]. by intros [_ ?].
  - split; [done|]. by intros [? _].
  - split; [done|]. by intros [? _].
Qed.

Lemma loads_cell_Ok c items : loads_cell c = Ok items ↔ c = Text (Payload items).
Proof.
  destruct c as [|[|its]]; simpl; split; try done; by intros [= ->].
Qed.

Lemma parsed_concat rs parsed :
  Forall2 (λ c its, loads_cell c = Ok its) (row_line_items <$> rs) parsed →
  rs ≫= row_items = concat parsed.
Proof.
  revert parsed. induction rs as [|r rs IH]; intros parsed.
  - by inversion 1.
  - rewrite fmap_cons. inversion 1 as [|c its ? parsed' Hc Hrest]; subst.
    rewrite bind_cons. simpl. f_equal; [|auto].
    apply loads_cell_Ok in Hc. unfold row_items. by rewrite Hc.
Qed.

Lemma extract_Ok parsed product_data :
  extract parsed = Ok product_data →
  Forall2 observed (concat parsed) product_data.
Proof.
  unfold extract. unfold mbind at 1, result_bind.
  destruct (mapM _ parsed) as [per_order|e] eqn:Hm; [|done].
  intros [= <-]. apply mapM_Ok in Hm.
  induction Hm as [|its os parsed per_order Hits _ IH]; simpl; [constructor|].
  apply Forall2_app; [|done].
  apply mapM_Ok in Hits. eapply Forall2_impl; [exact Hits|].
  intros. by apply observation_Ok.
Qed.

Lemma observed_quantities pid its product_data :
  Forall2 observed its product_data →
  quantities_of pid product_data
  = omap li_quantity (filter (λ it, li_product_id it = Some pid) its).
Proof.
  unfold quantities_of.
  induction 1 as [|it o its obs [Hp Hq] _ IH]; [done|].
  rewrite !filter_cons. rewrite Hp.
  destruct (decide (o.1 = pid)) as [->|Hne].
  - rewrite decide_True by done. simpl. rewrite Hq. by f_equal.
  - rewrite decide_False by congruence. done.
Qed.

Lemma observed_count pid its product_data :
  Forall2 observed its product_data →
  length (quantities_of pid product_data)
  = length (filter (λ it, li_product_id it = Some pid) its).
Proof.
  unfold quantities_of.
  induction 1 as [|it o its obs [Hp Hq] _ IH]; [done|].
  rewrite !filter_cons. rewrite Hp.
  destruct (decide (o.1 = pid)) as [->|Hne].
  - rewrite decide_True by done. simpl. by f_equal.
  - rewrite decide_False by congruence. done.
Qed.

Lemma observed_keys pid its product_data :
  Forall2 observed its product_data →
  pid ∈ product_data.*1 ↔ ∃ it, it ∈ its ∧ li_product_id it = Some pid.
Proof.
  induction 1 as [|it o its obs [Hp Hq] _ IH]; simpl.
  - split; [by intros ?%elem_of_nil | by intros (? & ?%elem_of_nil & _)].
  - rewrite elem_of_cons, IH. split.
    + intros [->|(it' & Hin & Hid)].
      * exists it. split; [left|done].
      * exists it'. split; [by right|done].
    + intros (it' & [->|Hin]%elem_of_cons & Hid).
      * left. congruence.
      * right. eauto.
Qed.

(** What a successful aggregation stage has computed. *)
Lemma product_sales_of_Ok df sales :
  product_sales_of df = Ok sales →
  ∃ product_data,
    Forall2 observed (dataset_items df) product_data
    ∧ product_data ≠ []
    ∧ sales = agg (groups product_data).
Proof.
  unfold product_sales_of, line_items_column.
  case_decide; [|done]. simpl.
  destruct (mapM loads_cell _) as [parsed|e] eqn:Hparsed; [|done]. simpl.
  destruct (extract parsed) as [product_data|e] eqn:Hex; [|done]. simpl.
  destruct product_data as [|o obs]; [done|]. simpl.
  intros [= <-]. exists (o :: obs). split; [|done].
  unfold dataset_items. apply mapM_Ok in Hparsed.
  rewrite (parsed_concat _ _ Hparsed). by apply extract_Ok.
Qed.

Lemma main_try_Ok fs orders_file predictions :
  main_try fs orders_file = Ok predictions →
  ∃ df sales,
    read_csv fs orders_file = Ok df
    ∧ product_sales_of df = Ok sales
    ∧ predictions = predict_all sales.
Proof.
  unfold main_try.
  destruct (read_csv fs orders_file) as [df|e]; [|done]. simpl.
  destruct (product_sales_of df) as [sales|e] eqn:Hsales; [|done]. simpl.
  intros [= <-]. by exists df, sales.
Qed.

(** ** The prediction loop *)

Lemma predict_all_snoc sales row :
  predict_all (sales ++ [row])
  = <[product_id row := predict_row row]> (predict_all sales).
Proof. unfold predict_all. by rewrite foldl_snoc. Qed.

Lemma predict_all_lookup sales pid p :
  predict_all sales !! pid = Some p →
  ∃ row, row ∈ sales ∧ product_id row = pid ∧ p = predict_row row.
Proof.
  induction sales as [|r sales IH] using rev_ind.
  - unfold predict_all. simpl. by rewrite lookup_empty.
  - rewrite predict_all_snoc. intros [[<- <-]|[Hne Hp]]%lookup_insert_Some.
    + exists r. rewrite elem_of_app, list_elem_of_singleton. auto.
    + destruct (IH Hp) as (row & Hin & Hid & Hrow).
      exists row. rewrite elem_of_app. auto.
Qed.

Lemma predict_all_keys sales pid :
  is_Some (predict_all sales !! pid) ↔ pid ∈ product_id <$> sales.
Proof.
  induction sales as [|r sales IH] using rev_ind.
  - unfold predict_all. simpl. rewrite lookup_empty, elem_of_nil.
    split; [by intros [? ?]|done].
  - rewrite predict_all_snoc, lookup_insert_is_Some, fmap_app, elem_of_app, IH.
    simpl. rewrite list_elem_of_singleton.
    destruct (decide (product_id r = pid)) as [Heq|Hne];
      [split; intros _; [right|left]; done|].
    split; [intros [?|[_ ?]]; [done|by left] | intros [?|?]; [by right|done]].
Qed.

Lemma predict_all_size sales :
  NoDup (product_id <$> sales) → size (predict_all sales) = length sales.
Proof.
  induction sales as [|r sales IH] using rev_ind; intros Hnd.
  - apply map_size_empty.
  - rewrite fmap_app in Hnd. apply NoDup_app in Hnd as (Hnd & Hfresh & _).
    rewrite predict_all_snoc, map_size_insert_None, length_app.
    + rewrite IH by done. simpl. lia.
    + apply eq_None_not_Some. rewrite predict_all_keys. intros Hin.
      apply (Hfresh _ Hin). simpl. left.
Qed.

Lemma agg_keys gs : product_id <$> agg gs = gs.*1.
Proof. unfold agg. rewrite <- list_fmap_compose. done. Qed.

Lemma agg_elem_of gs row :
  row ∈ agg gs ↔
  ∃ k qs, (k, qs) ∈ gs ∧ row = SalesRow k (sum qs) (mean qs) (count qs).
Proof.
  unfold agg. rewrite list_elem_of_fmap. split.
  - intros ([k qs] & -> & Hin). by exists k, qs.
  - intros (k & qs & Hin & ->). by exists (k, qs).
Qed.

(** ** Arithmetic of the aggregates *)

Lemma int64_small z : int64_range z → int64 z = z.
Proof.
  unfold int64_range, int64. intros Hz.
  rewrite Z.mod_small by lia. lia.
Qed.

Lemma int64_add_l a b : int64 (int64 a + b) = int64 (a + b).
Proof.
  unfold int64. f_equal.
  replace ((a + 2 ^ 63) mod 2 ^ 64 - 2 ^ 63 + b + 2 ^ 63)
    with ((a + 2 ^ 63) mod 2 ^ 64 + b) by lia.
  rewrite Z.add_mod_idemp_l by lia. f_equal. lia.
Qed.

(** The int64 sum is the exact total modulo [2^64]. *)
Lemma sum_total qs : sum qs = int64 (total qs).
Proof.
  unfold sum. change 0 with (int64 0) at 1.
  change (total qs) with (0 + total qs). generalize 0 as a.
  induction qs as [|q qs IH]; intros a; simpl.
  - f_equal. lia.
  - rewrite int64_add_l, IH. f_equal. unfold total. simpl. lia.
Qed.

Lemma total_nonneg qs : Forall (Z.le 0) qs → 0 ≤ total qs.
Proof. unfold total. induction 1; simpl; lia. Qed.

Lemma total_abs qs : Z.abs (total qs) ≤ total (Z.abs <$> qs).
Proof.
  unfold total. induction qs as [|q qs IH]; [done|].
  rewrite fmap_cons. cbn [foldr]. lia.
Qed.

(** A sum whose terms stay within the int64 range does not wrap. *)
Lemma sum_exact qs : total (Z.abs <$> qs) < 2 ^ 63 → sum qs = total qs.
Proof.
  intros Hb. rewrite sum_total. apply int64_small.
  pose proof (total_abs qs). unfold int64_range. lia.
Qed.

Lemma mean_correct qs :
  (mean qs == inject_Z (total qs) / inject_Z (count qs))%Q.
Proof. unfold mean. apply Qred_correct. Qed.

Lemma mean_nonneg qs : 0 ≤ total qs → (0 <= mean qs)%Q.
Proof.
  intros Hs. rewrite mean_correct. unfold count.
  destruct qs as [|q qs']; [simpl; unfold Qdiv, Qinv; simpl; rewrite Qmult_0_r; apply Qle_refl|].
  apply Qle_shift_div_l.
  - change 0%Q with (inject_Z 0). rewrite <- Zlt_Qlt. simpl length. lia.
  - rewrite Qmult_0_l. change 0%Q with (inject_Z 0). by rewrite <- Zle_Qle.
Qed.

(** [int] rounds toward zero: down for a non-negative number, up for a
    negative one. *)
Lemma int_floor x : (0 <= x)%Q → int x = Qfloor x.
Proof.
  destruct x as [n d]. unfold Qle, int, Qfloor. simpl. intros Hn.
  apply Z.quot_div_nonneg; lia.
Qed.

Lemma int_ceiling x : (x < 0)%Q → int x = Qceiling x.
Proof.
  destruct x as [n d]. unfold Qlt, int, Qceiling, Qfloor, Qopp. simpl. intros Hn.
  rewrite <- (Z.opp_involutive n) at 1.
  rewrite Z.quot_opp_l by lia.
  f_equal. apply Z.quot_div_nonneg; lia.
Qed.

Lemma int_comp x y : (x == y)%Q → int x = int y.
Proof.
  intros Heq. destruct (Qlt_le_dec x 0) as [Hneg|Hpos].
  - rewrite !int_ceiling by (by rewrite <- ?Heq). by rewrite Heq.
  - rewrite !int_floor by (by rewrite <- ?Heq). by rewrite Heq.
Qed.

(** ** Well-formed datasets never fail before the group-by *)

Lemma mapM_total {A B} (f : A → result B) l :
  Forall (λ x, ∃ y, f x = Ok y) l → ∃ k, mapM f l = Ok k.
Proof.
  induction 1 as [|x l [y Hy] _ [k Hk]]; simpl; [by exists []|].
  unfold mbind, result_bind at 1. rewrite Hy, Hk. simpl. by exists (y :: k).
Qed.

Lemma complete_observation it : complete it → ∃ o, observation it = Ok o.
Proof.
  unfold complete. intros [[pid Hp]%bool_decide_unpack [q Hq]%bool_decide_unpack]%andb_True.
  exists (pid, q). apply observation_Ok. by split.
Qed.

Lemma product_sales_of_well_formed df :
  well_formed df = true →
  ∃ product_data,
    Forall2 observed (dataset_items df) product_data
    ∧ product_sales_of df = aggregate product_data.
Proof.
  unfold well_formed. intros Hwf%Is_true_true.
  apply andb_True in Hwf as [Hcol%bool_decide_unpack Hrows%forallb_True].
  assert (Hparsed : mapM loads_cell (row_line_items <$> rows df)
                    = Ok (row_items <$> rows df)).
  { apply mapM_Ok. apply Forall2_fmap. apply Forall_Forall2_diag.
    eapply Forall_impl; [exact Hrows|]. intros r Hr. simpl in Hr.
    unfold row_items. destruct (row_line_items r) as [|[|its]]; done. }
  destruct (mapM_total (mapM observation) (row_items <$> rows df)) as [per_order Hper].
  { apply Forall_fmap. eapply Forall_impl; [exact Hrows|]. intros r Hr. simpl.
    simpl in Hr. apply mapM_total. unfold row_items.
    destruct (row_line_items r) as [|[|its]]; simpl in *; try done.
    apply forallb_True in Hr.
    eapply Forall_impl; [exact Hr|]. intros. by apply complete_observation. }
  assert (Hex : extract (row_items <$> rows df) = Ok (concat per_order)).
  { unfold extract. by rewrite Hper. }
  exists (concat per_order). split.
  - unfold dataset_items. apply mapM_Ok in Hparsed.
    rewrite (parsed_concat _ _ Hparsed). by apply extract_Ok.
  - unfold product_sales_of, line_items_column.
    rewrite decide_True by done. simpl. rewrite Hparsed. simpl. by rewrite Hex.
Qed.

Lemma read_csv_lookup fs orders_file df :
  fs !! orders_file = Some (CsvFile df) → read_csv fs orders_file = Ok df.
Proof. unfold read_csv. by intros ->. Qed.

Lemma total_cons q qs : total (q :: qs) = q + total qs.
Proof. done. Qed.

Lemma volume_cons it items :
  volume (it :: items) = Z.abs (default 0 (li_quantity it)) + volume items.
Proof.
  unfold volume. cbn [omap list_omap].
  destruct (li_quantity it) as [q|]; [by rewrite fmap_cons, total_cons|].
  change (Z.abs (default 0 None)) with 0. lia.
Qed.

(** The quantities of one product are bounded by the volume of the
    dataset. *)
Lemma volume_filter (P : line_item → Prop) `{∀ it, Decision (P it)} items :
  volume (filter P items) ≤ volume items.
Proof.
  induction items as [|it items IH]; [done|].
  rewrite filter_cons. destruct (decide (P it)); rewrite !volume_cons; lia.
Qed.


Lemma within_magnitude_spec bound df :
  within_magnitude bound df = true →
  (∀ it pid, it ∈ dataset_items df → li_product_id it = Some pid →
             Z.abs pid < 2 ^ 53)
  ∧ volume (dataset_items df) < bound
  ∧ Z.of_nat (length (dataset_items df)) < 2 ^ 53.
Proof.
  unfold within_magnitude. intros Hw%Is_true_true.
  apply andb_True in Hw as [Hw Hlen%bool_decide_unpack].
  apply andb_True in Hw as [Hids%forallb_True Hvol%bool_decide_unpack].
  split; [|done]. intros it pid Hit Hpid.
  eapply Forall_forall in Hids; [|exact Hit]. simpl in Hids.
  apply bool_decide_unpack in Hids. by rewrite Hpid in Hids.
Qed.

Lemma quantity_total_bound bound pid df :
  within_magnitude bound df = true → Z.abs (quantity_total pid df) < bound.
Proof.
  intros (_ & Hvol & _)%within_magnitude_spec.
  unfold quantity_total, items_of.
  pose proof (total_abs (omap li_quantity
    (filter (λ it, li_product_id it = Some pid) (dataset_items df)))) as Habs.
  pose proof (volume_filter (λ it, li_product_id it = Some pid) (dataset_items df))
    as Hsub.
  unfold volume in Hsub at 1. lia.
Qed.

Lemma quantity_total_int64 bound pid df :
  within_magnitude bound df = true → bound ≤ 2 ^ 63 →
  int64 (quantity_total pid df) = quantity_total pid df.
Proof.
  intros Hw Hb. apply int64_small.
  pose proof (quantity_total_bound _ pid _ Hw). unfold int64_range. lia.
Qed.

(** ** The claims on [main] *)

(** Every entry of the mapping comes from a row of the aggregate table: its
    total is the int64 sum of the quantities of the product, its frequency
    their number, its average their exact mean. *)
Lemma main_try_aggregates fs orders_file predictions :
  main_try fs orders_file = Ok predictions →
  ∃ df sales,
    read_csv fs orders_file = Ok df
    ∧ product_sales_of df = Ok sales
    ∧ ∀ pid p, predictions !! pid = Some p →
        ∃ row, row ∈ sales
          ∧ product_id row = pid
          ∧ total_quantity row = int64 (quantity_total pid df)
          ∧ order_frequency row = occurrences pid df
          ∧ 0 < order_frequency row
          ∧ (avg_quantity row
             == inject_Z (quantity_total pid df) / inject_Z (occurrences pid df))%Q
          ∧ p_total_quantity p = total_quantity row
          ∧ p_avg_quantity p = avg_quantity row.
Proof.
  intros (df & sales & Hread & Hsales & ->)%main_try_Ok.
  exists df, sales. do 2 (split; [done|]).
  intros pid p (row & Hrow & Hid & ->)%predict_all_lookup.
  exists row. do 2 (split; [done|]).
  destruct (product_sales_of_Ok _ _ Hsales) as (obs & Hobs & _ & ->).
  apply agg_elem_of in Hrow as (k & qs & Hin & ->). simpl in Hid. subst k.
  apply groups_elem_of in Hin as [-> Hkey]. simpl.
  unfold quantity_total, occurrences, items_of, count.
  rewrite <- (observed_quantities _ _ _ Hobs), <- (observed_count _ _ _ Hobs).
  split; [apply sum_total|]. split; [done|].
  split; [|split; [apply mean_correct|done]].
  apply list_elem_of_fmap in Hkey as (o & -> & Ho).
  unfold quantities_of.
  assert (Hmem : o ∈ filter (λ o', o'.1 = o.1) obs) by by apply list_elem_of_filter.
  destruct (filter _ obs); [by apply elem_of_nil in Hmem|simpl; lia].
Qed.

(** C2, within the magnitudes for which int64 and float64 are exact: when
    the pipeline succeeds on a dataset whose product ids are below [2^53] in
    absolute value and whose quantities have absolute values adding up to
    less than [2^53], every product of the output comes from a row of the
    aggregate table whose [total_quantity] is the exact sum of the product's
    quantities over all line items of the dataset, whose [order_frequency]
    is the number of its line-item occurrences (a product listed twice in
    one order counts twice) and whose [avg_quantity] is the first divided by
    the second; the output carries that total and that average. *)
Theorem main_aggregates_exact fs orders_file df predictions :
  read_csv fs orders_file = Ok df →
  within_magnitude (2 ^ 53) df = true →
  main_try fs orders_file = Ok predictions →
  ∃ sales,
    product_sales_of df = Ok sales
    ∧ ∀ pid p, predictions !! pid = Some p →
        ∃ row, row ∈ sales
          ∧ product_id row = pid
          ∧ total_quantity row = quantity_total pid df
          ∧ order_frequency row = occurrences pid df
          ∧ 0 < order_frequency row
          ∧ (avg_quantity row
             == inject_Z (total_quantity row) / inject_Z (order_frequency row))%Q
          ∧ p_total_quantity p = total_quantity row
          ∧ p_avg_quantity p = avg_quantity row.
Proof.
  intros Hread Hw Hmain.
  destruct (main_try_aggregates _ _ _ Hmain) as (df' & sales & Hread' & Hsales & Hrows).
  rewrite Hread in Hread'. injection Hread' as <-.
  exists sales. split; [done|]. intros pid p Hp.
  destruct (Hrows _ _ Hp) as (row & Hrow & Hid & Htot & Hfreq & Hpos & Havg & Hpt & Hpa).
  rewrite (quantity_total_int64 _ _ _ Hw) in Htot by lia.
  exists row. repeat (split; [done|]). split; [|done].
  by rewrite Htot, Hfreq.
Qed.

Lemma main_aggregates_exact_witness :
  ∃ sales,
    product_sales_of twice_in_one_order = Ok sales
    ∧ ∀ pid p, ({[7 := Prediction 6 (3 # 1) 4]} : gmap Z prediction) !! pid = Some p →
        ∃ row, row ∈ sales
          ∧ product_id row = pid
          ∧ total_quantity row = quantity_total pid twice_in_one_order
          ∧ order_frequency row = occurrences pid twice_in_one_order
          ∧ 0 < order_frequency row
          ∧ (avg_quantity row
             == inject_Z (total_quantity row) / inject_Z (order_frequency row))%Q
          ∧ p_total_quantity p = total_quantity row
          ∧ p_avg_quantity p = avg_quantity row.
Proof.
  apply (main_aggregates_exact {["orders.csv" := CsvFile twice_in_one_order]}
           "orders.csv").
  - vm_compute. reflexivity.
  - vm_compute. reflexivity.
  - vm_compute. reflexivity.
Defined.

(** C2 as stated fails where the int64 sum wraps around: three line items of
    [2^62] for product 1 are processed successfully, and the total the
    mapping reports is [-2^62], not their sum [3 * 2^62]; the average
    reported is [2^62], which is not that total divided by 3. *)
Lemma total_quantity_wraps :
  ∃ predictions p,
    (main (World {["orders.csv" := CsvFile three_large_items]} []) "orders.csv").1
    = Ok predictions
    ∧ predictions !! 1 = Some p
    ∧ p_total_quantity p = - 2 ^ 62
    ∧ quantity_total 1 three_large_items = 3 * 2 ^ 62
    ∧ occurrences 1 three_large_items = 3
    ∧ p_total_quantity p ≠ quantity_total 1 three_large_items
    ∧ ¬ (p_avg_quantity p == inject_Z (p_total_quantity p) / inject_Z 3)%Q.
Proof.
  eexists _, _. split; [vm_compute; reflexivity|].
  split; [vm_compute; reflexivity|].
  repeat split; vm_compute; discriminate.
Qed.

(** The recommendation of a product is [int] of 1.5 times its mean
    quantity. *)
Lemma main_try_predicted_stock_mean fs orders_file df predictions pid p :
  read_csv fs orders_file = Ok df →
  main_try fs orders_file = Ok predictions →
  predictions !! pid = Some p →
  0 < occurrences pid df
  ∧ p_predicted_stock p = int (mean_quantity pid df * (3 # 2)).
Proof.
  intros Hread Hmain Hp.
  destruct (main_try_aggregates _ _ _ Hmain) as (df' & sales & Hread' & _ & Hrows).
  rewrite Hread in Hread'. injection Hread' as <-.
  destruct (Hrows _ _ Hp) as (row & _ & _ & _ & Hfreq & Hpos & Havg & _ & Hpa).
  split; [by rewrite <- Hfreq|].
  apply main_try_Ok in Hmain as (df' & sales' & _ & _ & ->).
  apply predict_all_lookup in Hp as (row' & _ & _ & ->). simpl in *.
  apply int_comp. unfold mean_quantity. by rewrite Hpa, Havg.
Qed.

(** C1, as the code has it and within the magnitudes for which float64
    rounds 1.5 times the average to the same integer part (product ids below
    [2^53], quantities adding up to less than [2^50] in absolute value):
    [predicted_stock] is the integer obtained by Python's [int], which rounds
    toward zero, from 1.5 times the mean quantity of the product, the mean
    being the sum of the quantities of its line items divided by their
    number.  It is the floor of that product when the mean is not negative,
    in particular when no line item of the product has a negative quantity,
    and the ceiling when the mean is negative. *)
Theorem predicted_stock_truncates fs orders_file df predictions pid p :
  read_csv fs orders_file = Ok df →
  within_magnitude (2 ^ 50) df = true →
  main_try fs orders_file = Ok predictions →
  predictions !! pid = Some p →
  p_predicted_stock p = int (mean_quantity pid df * (3 # 2))
  ∧ ((0 <= mean_quantity pid df)%Q →
     p_predicted_stock p = Qfloor (mean_quantity pid df * (3 # 2)))
  ∧ ((mean_quantity pid df < 0)%Q →
     p_predicted_stock p = Qceiling (mean_quantity pid df * (3 # 2)))
  ∧ (Forall (Z.le 0) (omap li_quantity (items_of pid df)) →
     p_predicted_stock p = Qfloor (mean_quantity pid df * (3 # 2))).
Proof.
  intros Hread _ Hmain Hp.
  destruct (main_try_predicted_stock_mean _ _ _ _ _ _ Hread Hmain Hp) as [Hpos Hint].
  assert (Hfloor : (0 <= mean_quantity pid df)%Q →
                   p_predicted_stock p = Qfloor (mean_quantity pid df * (3 # 2))).
  { intros Hnn. rewrite Hint. apply int_floor.
    apply Qmult_le_0_compat; [done|]. by unfold Qle. }
  split; [done|]. split; [done|]. split.
  - intros Hneg. rewrite Hint. apply int_ceiling.
    destruct (mean_quantity pid df) as [n d]. revert Hneg.
    unfold Qlt, Qmult. simpl. lia.
  - intros Hq. apply Hfloor. unfold mean_quantity. apply Qle_shift_div_l.
    + change 0%Q with (inject_Z 0). by rewrite <- Zlt_Qlt.
    + rewrite Qmult_0_l. change 0%Q with (inject_Z 0). rewrite <- Zle_Qle.
      by apply total_nonneg.
Qed.

Lemma predicted_stock_truncates_witness :
  p_predicted_stock (Prediction 5 (5 # 1) 7)
  = int (mean_quantity 2 (OrdersDf orders_header [OrderRow 1 (Text (Payload [item 2 5]))])
         * (3 # 2))
  ∧ ((0 <= mean_quantity 2 (OrdersDf orders_header [OrderRow 1 (Text (Payload [item 2 5]))]))%Q →
     p_predicted_stock (Prediction 5 (5 # 1) 7)
     = Qfloor (mean_quantity 2 (OrdersDf orders_header [OrderRow 1 (Text (Payload [item 2 5]))])
               * (3 # 2)))
  ∧ ((mean_quantity 2 (OrdersDf orders_header [OrderRow 1 (Text (Payload [item 2 5]))]) < 0)%Q →
     p_predicted_stock (Prediction 5 (5 # 1) 7)
     = Qceiling (mean_quantity 2 (OrdersDf orders_header [OrderRow 1 (Text (Payload [item 2 5]))])
                 * (3 # 2)))
  ∧ (Forall (Z.le 0)
       (omap li_quantity
          (items_of 2 (OrdersDf orders_header [OrderRow 1 (Text (Payload [item 2 5]))]))) →
     p_predicted_stock (Prediction 5 (5 # 1) 7)
     = Qfloor (mean_quantity 2 (OrdersDf orders_header [OrderRow 1 (Text (Payload [item 2 5]))])
               * (3 # 2))).
Proof.
  apply (predicted_stock_truncates (one_order [item 2 5]) "orders.csv"
           (OrdersDf orders_header [OrderRow 1 (Text (Payload [item 2 5]))])
           {[2 := Prediction 5 (5 # 1) 7]} 2 (Prediction 5 (5 # 1) 7)).
  - vm_compute. reflexivity.
  - vm_compute. reflexivity.
  - vm_compute. reflexivity.
  - vm_compute. reflexivity.
Defined.

(** C1 as stated fails for a negative average: one line item of quantity -1
    gives the average -1 and [int(-1.5) = -1], while the floor of -1.5 is -2. *)
Lemma predicted_stock_not_floor :
  ∃ predictions p,
    (main (World (one_order [item 1 (-1)]) []) "orders.csv").1 = Ok predictions
    ∧ predictions !! 1 = Some p
    ∧ p_avg_quantity p = (-1 # 1)%Q
    ∧ p_predicted_stock p = -1
    ∧ Qfloor (p_avg_quantity p * (3 # 2)) = -2
    ∧ p_predicted_stock p ≠ Qfloor (p_avg_quantity p * (3 # 2)).
Proof.
  exists {[1 := Prediction (-1) (-1 # 1) (-1)]}, (Prediction (-1) (-1 # 1) (-1)).
  vm_compute. repeat split; discriminate.
Qed.

(** X20: when every order of the dataset decodes, every line item carries
    [product_id] and [quantity], and the product ids are below [2^53] in
    absolute value, so that no two of them fall on one float64 key, the keys
    of the returned mapping are exactly the product ids that occur in some
    line item; the aggregate table has one row per product id, so no key is
    written twice and the mapping has as many entries as the table has
    rows. *)
Theorem every_product_exactly_once w orders_file df :
  files w !! orders_file = Some (CsvFile df) →
  well_formed df = true →
  within_magnitude (2 ^ 53) df = true →
  ∃ predictions,
    (main w orders_file).1 = Ok predictions
    ∧ (∀ pid, is_Some (predictions !! pid)
              ↔ ∃ it, it ∈ dataset_items df ∧ li_product_id it = Some pid)
    ∧ (∀ sales, product_sales_of df = Ok sales →
         NoDup (product_id <$> sales) ∧ size predictions = length sales).
Proof.
  intros Hfile Hwf _.
  destruct (product_sales_of_well_formed _ Hwf) as (obs & Hobs & Hsales).
  unfold main, main_try. rewrite (read_csv_lookup _ _ _ Hfile). simpl.
  rewrite Hsales. unfold aggregate. destruct obs as [|o obs]; simpl.
  - exists ∅. split; [done|]. split; [|done].
    intros pid. rewrite lookup_empty. apply Forall2_nil_inv_r in Hobs.
    rewrite Hobs. split; [by intros [? ?]|by intros (? & ?%elem_of_nil & _)].
  - exists (predict_all (agg (groups (o :: obs)))). split; [done|]. split.
    + intros pid.
      by rewrite predict_all_keys, agg_keys, groups_keys, (observed_keys _ _ _ Hobs).
    + intros sales [= <-].
      assert (Hnd : NoDup (product_id <$> agg (groups (o :: obs)))).
      { rewrite agg_keys. apply sorted_keys_NoDup, groups_sorted. }
      split; [done|]. by apply predict_all_size.
Qed.

Lemma every_product_exactly_once_witness :
  ∃ predictions,
    (main (World {["orders.csv" := CsvFile example_df]} []) "orders.csv").1
    = Ok predictions
    ∧ (∀ pid, is_Some (predictions !! pid)
              ↔ ∃ it, it ∈ dataset_items example_df ∧ li_product_id it = Some pid)
    ∧ (∀ sales, product_sales_of example_df = Ok sales →
         NoDup (product_id <$> sales) ∧ size predictions = length sales).
Proof.
  apply (every_product_exactly_once
           (World {["orders.csv" := CsvFile example_df]} []) "orders.csv" example_df).
  - vm_compute. reflexivity.
  - vm_compute. reflexivity.
  - vm_compute. reflexivity.
Defined.

(** C3, on the code: in [one_malformed_df] product 1 occurs in a line item
    of order 1, whose [line_items] decode, and in no other order; the
    [line_items] of order 2 are not JSON.  [main] reports the
    [JSONDecodeError] of order 2 and returns the empty mapping, in which
    product 1 is no key. *)
Lemma product_of_sound_order_omitted :
  rows one_malformed_df
  = [OrderRow 1 (Text (Payload [item 1 10])); OrderRow 2 (Text Malformed)]
  ∧ item 1 10 ∈ dataset_items one_malformed_df
  ∧ main (World {["orders.csv" := CsvFile one_malformed_df]} []) "orders.csv"
    = (Ok ∅, World {["orders.csv" := CsvFile one_malformed_df]} [JSONDecodeError])
  ∧ (∅ : gmap Z prediction) !! 1 = None.
Proof.
  split; [reflexivity|]. split; [vm_compute; left|].
  split; [vm_compute; reflexivity|done].
Qed.

(** ** Failure of a stage of the pipeline *)

Lemma main_Raise w orders_file e :
  main_try (files w) orders_file = Raise e →
  main w orders_file = (Ok ∅, World (files w) (console w ++ [e])).
Proof. unfold main. by intros ->. Qed.

(** One cell that does not decode aborts the whole aggregation. *)
Lemma undecodable_cell_aborts df r :
  "line_items" ∈ columns df →
  r ∈ rows df →
  row_line_items r = Blank ∨ row_line_items r = Text Malformed →
  ∃ e, product_sales_of df = Raise e.
Proof.
  intros Hcol Hr Hbad. unfold product_sales_of, line_items_column.
  rewrite decide_True by done. simpl.
  destruct (mapM_Raise loads_cell (row_line_items <$> rows df) (row_line_items r)
              (match row_line_items r with Blank => TypeError | _ => JSONDecodeError end))
    as [e' He'].
  - apply list_elem_of_fmap. by exists r.
  - by destruct Hbad as [-> | ->].
  - rewrite He'. simpl. by exists e'.
Qed.

Lemma malformed_order_empties_forecast w orders_file df r :
  files w !! orders_file = Some (CsvFile df) →
  "line_items" ∈ columns df →
  r ∈ rows df →
  row_line_items r = Text Malformed →
  (main w orders_file).1 = Ok ∅.
Proof.
  intros Hfile Hcol Hr Hbad.
  destruct (undecodable_cell_aborts df r) as [e He]; [done|done|by right|].
  rewrite (main_Raise _ _ e); [done|].
  unfold main_try. rewrite (read_csv_lookup _ _ _ Hfile). simpl. by rewrite He.
Qed.

(** C4, on the code: with one order whose [line_items] are not JSON, [main]
    returns the empty mapping and reports [JSONDecodeError]; on the dataset
    without that order it returns the aggregates of product 1. *)
Theorem malformed_order_aborts_batch :
  main (World {["orders.csv" := CsvFile one_malformed_df]} []) "orders.csv"
  = (Ok ∅, World {["orders.csv" := CsvFile one_malformed_df]} [JSONDecodeError])
  ∧ main (World {["orders.csv" := CsvFile malformed_removed_df]} []) "orders.csv"
    = (Ok {[1 := Prediction 10 (10 # 1) 15]},
       World {["orders.csv" := CsvFile malformed_removed_df]} []).
Proof. split; vm_compute; reflexivity. Qed.

(** C5: [main] always returns a mapping and never raises.  Either the [try]
    block ran to its end and its mapping is returned with nothing printed, or
    it raised some exception, which is printed, and the empty mapping is
    returned.  The files are left as they were. *)
Theorem main_never_raises w orders_file :
  (∃ predictions,
      main_try (files w) orders_file = Ok predictions
      ∧ main w orders_file = (Ok predictions, w))
  ∨ (∃ e,
      main_try (files w) orders_file = Raise e
      ∧ main w orders_file = (Ok ∅, World (files w) (console w ++ [e]))).
Proof.
  unfold main. destruct (main_try (files w) orders_file) as [predictions|e].
  - left. by exists predictions.
  - right. by exists e.
Qed.

(** The failures named by the specification do raise inside the [try] block:
    a missing file, a file that is no CSV, a dataset without the [line_items]
    column, a blank or malformed cell, a line item without a required field. *)
Lemma main_try_missing_file fs orders_file :
  fs !! orders_file = None → main_try fs orders_file = Raise FileNotFoundError.
Proof. unfold main_try, read_csv. by intros ->. Qed.

Lemma main_try_not_csv fs orders_file f :
  fs !! orders_file = Some f → (∀ df, f ≠ CsvFile df) →
  main_try fs orders_file = Raise ParserError.
Proof.
  unfold main_try, read_csv. intros -> Hf. destruct f as [df| |]; [|done..].
  by destruct (Hf df).
Qed.

Lemma main_try_missing_column fs orders_file df :
  fs !! orders_file = Some (CsvFile df) → "line_items" ∉ columns df →
  main_try fs orders_file = Raise (KeyError "line_items").
Proof.
  intros Hfile Hcol. unfold main_try. rewrite (read_csv_lookup _ _ _ Hfile). simpl.
  unfold product_sales_of, line_items_column. by rewrite decide_False.
Qed.

Lemma main_try_undecodable fs orders_file df r :
  fs !! orders_file = Some (CsvFile df) → "line_items" ∈ columns df →
  r ∈ rows df →
  row_line_items r = Blank ∨ row_line_items r = Text Malformed →
  ∃ e, main_try fs orders_file = Raise e.
Proof.
  intros Hfile Hcol Hr Hbad.
  destruct (undecodable_cell_aborts df r) as [e He]; [done..|].
  exists e. unfold main_try. rewrite (read_csv_lookup _ _ _ Hfile). simpl.
  by rewrite He.
Qed.

Example main_try_missing_field :
  main_try (one_order [LineItem (Some 1) None None None]) "orders.csv"
  = Raise (KeyError "quantity").
Proof. vm_compute. reflexivity. Qed.

(** C6, as the code has it: for an orders file with the required header and
    no order rows, [main] returns the empty mapping and raises nothing, but
    it does so through its handler: the frame built from no observations has
    no [product_id] column, the group-by raises [KeyError], and [main]
    reports that error on the console before it returns. *)
Theorem empty_dataset_empty_mapping w orders_file header :
  files w !! orders_file = Some (CsvFile (OrdersDf header [])) →
  "line_items" ∈ header →
  main w orders_file
  = (Ok ∅, World (files w) (console w ++ [KeyError "product_id"])).
Proof.
  intros Hfile Hcol. apply main_Raise. unfold main_try.
  rewrite (read_csv_lookup _ _ _ Hfile). simpl.
  unfold product_sales_of, line_items_column. simpl.
  by rewrite decide_True.
Qed.

Lemma empty_dataset_empty_mapping_witness :
  main (World empty_orders_file []) "orders.csv"
  = (Ok ∅, World (files (World empty_orders_file []))
                 (console (World empty_orders_file []) ++ [KeyError "product_id"])).
Proof.
  apply (empty_dataset_empty_mapping (World empty_orders_file []) "orders.csv"
           orders_header).
  - vm_compute. reflexivity.
  - vm_compute. repeat (first [by left | right]).
Defined.

(** C6 as stated fails: on the file that holds the header and nothing else,
    with nothing printed before, [main] returns the empty mapping and leaves
    an error report on the console. *)
Lemma empty_dataset_is_reported :
  rows (OrdersDf orders_header []) = []
  ∧ (main (World empty_orders_file []) "orders.csv").1 = Ok ∅
  ∧ console (main (World empty_orders_file []) "orders.csv").2
    = [KeyError "product_id"]
  ∧ console (main (World empty_orders_file []) "orders.csv").2 ≠ [].
Proof. repeat split; vm_compute; (reflexivity || discriminate). Qed.

(** C7: [main] does not change the files, and a second run on the world left
    by the first returns the same mapping. *)
Theorem main_idempotent w orders_file :
  files (main w orders_file).2 = files w
  ∧ (main (main w orders_file).2 orders_file).1 = (main w orders_file).1.
Proof.
  unfold main. destruct (main_try (files w) orders_file) as [p|e] eqn:Htry; simpl.
  - by rewrite Htry.
  - by rewrite Htry.
Qed.

(** ** [prepare_data] against the aggregation of [main] *)

(** C10, on the code: on the observations of the end-to-end example the two
    aggregators disagree.  [main] gives product 1 the mean 15 and the
    frequency 2 and product 2 the mean 5 and the frequency 1.  In
    [prepare_data] the row of product 1 (label 0) gets NaN twice, and the row
    of product 2 (label 1) gets the mean and the frequency of product 1. *)
Theorem prepare_data_misaligned :
  aggregate example_observations
  = Ok [SalesRow 1 30 (15 # 1) 2; SalesRow 2 5 (5 # 1) 1]
  ∧ prepare_aggregate example_observations
    = Ok [PreparedRow 1 30 None None; PreparedRow 2 5 (Some (15 # 1)) (Some 2)].
Proof. split; vm_compute; reflexivity. Qed.

(** The same through the two functions, on the dataset of the example. *)
Example prepare_data_example :
  prepare_data example_df
  = Ok [PreparedRow 1 30 None None; PreparedRow 2 5 (Some (15 # 1)) (Some 2)]
  ∧ product_sales_of example_df
    = Ok [SalesRow 1 30 (15 # 1) 2; SalesRow 2 5 (5 # 1) 1].
Proof. split; vm_compute; reflexivity. Qed.

(** The two aggregators do agree on the product ids and on the totals. *)
Lemma prepare_aggregate_totals product_data prepared sales :
  prepare_aggregate product_data = Ok prepared →
  aggregate product_data = Ok sales →
  (λ r, (pr_product_id r, pr_quantity r)) <$> prepared
  = (λ r, (product_id r, total_quantity r)) <$> sales.
Proof.
  unfold prepare_aggregate, aggregate.
  destruct (groupby_product_id product_data) as [gs|e]; [|done]. simpl.
  intros [= <-] [= <-]. unfold agg.
  rewrite <- list_fmap_compose.
  generalize ((λ g : Z * list Z, (g.1, mean g.2)) <$> gs).
  generalize ((λ g : Z * list Z, (g.1, count g.2)) <$> gs).
  intros sizes means. apply list_eq. intros i.
  rewrite !list_lookup_fmap, list_lookup_imap, list_lookup_fmap.
  by destruct (gs !! i).
Qed.

(** ** The learned mode *)

(** C9: if the model file or the scaler file cannot be found or unpickled,
    [predict_stock_needs] raises the exception of the failed load; it returns
    no prediction. *)
Theorem predict_stock_needs_fails_without_artifacts fs new_data e :
  joblib_load fs "stock_prediction_model.pkl" = Raise e
  ∨ ((∃ model, joblib_load fs "stock_prediction_model.pkl" = Ok model)
     ∧ joblib_load fs "stock_scaler.pkl" = Raise e) →
  predict_stock_needs fs new_data = Raise e.
Proof.
  unfold predict_stock_needs. intros [-> | [[model ->] ->]]; reflexivity.
Qed.

Lemma predict_stock_needs_fails_without_artifacts_witness :
  predict_stock_needs {["stock_prediction_model.pkl" := Pickle (Model constant_model)]}
                      [(0, PreparedRow 1 30 None None)]
  = Raise FileNotFoundError.
Proof.
  apply predict_stock_needs_fails_without_artifacts.
  right. split; [eexists|]; vm_compute; reflexivity.
Defined.

(** A load fails exactly when the file is absent or is no pickle. *)
Lemma joblib_load_Raise fs path :
  (∃ e, joblib_load fs path = Raise e) ↔ ∀ o, fs !! path ≠ Some (Pickle o).
Proof.
  unfold joblib_load. destruct (fs !! path) as [[df|o|]|]; split;
    try (intros _; by eauto); try (intros [? ?]; done); try done.
  intros H. by destruct (H o).
Qed.

(** With both artifacts in place the call goes through. *)
Example predict_stock_needs_example :
  predict_stock_needs
    {["stock_prediction_model.pkl" := Pickle (Model constant_model);
      "stock_scaler.pkl" := Pickle (Scaler identity_scaler)]}
    [(0, PreparedRow 1 30 None None)]
  = Ok {[0 := StockPrediction None 1%Q 1%Q]}.
Proof. vm_compute. reflexivity. Qed.

(** A batch with a sound order, a malformed one and a completed one. *)
Example process_orders_shop :
  process_orders shop
  = Ok (Database {[1 := Product "widget" (2 # 1) (-2); 2 := Product "gadget" (9 # 1) (-3)]}
                 [new_order 1 "completed" (Payload [item 1 7; LineItem (Some 2) (Some 3) (Some "gadget") (Some (9 # 1))]);
                  new_order 2 "pending" Malformed;
                  new_order 3 "completed" (Payload [item 1 100])],
        [InvalidJSON 2; OrdersProcessed]).
Proof. vm_compute. reflexivity. Qed.

(** ** Order processing *)

Lemma foldM_cons {A B} (f : A → B → result A) a x l :
  foldM f a (x :: l) = f a x ≫= λ a', foldM f a' l.
Proof. done. Qed.




Lemma bind_int_inv z z' : bind_int z = Ok z' → z' = z.
Proof. unfold bind_int. case_decide; by intros [= <-]. Qed.

Lemma deducted_cons pid it items :
  deducted pid (it :: items)
  = (if decide (li_product_id it = Some pid)
     then from_option id 0 (li_quantity it) else 0) + deducted pid items.
Proof.
  unfold deducted. rewrite filter_cons. case_decide; [|done].
  cbn [omap list_omap]. by destruct (li_quantity it).
Qed.

Lemma deducted_app pid items1 items2 :
  deducted pid (items1 ++ items2) = deducted pid items1 + deducted pid items2.
Proof.
  induction items1 as [|it items1 IH]; [done|].
  rewrite <- app_comm_cons, !deducted_cons, IH. lia.
Qed.






Lemma complete_orders_spec ids os :
  Forall2 (completed_by ids) os (foldl (λ os' id, complete_order id os') os ids).
Proof.
  revert os. induction ids as [|id ids IH]; intros os; simpl.
  - apply Forall_Forall2_diag, Forall_forall. intros o _.
    repeat split; [done|]. by intros ?%elem_of_nil.
  - specialize (IH (complete_order id os)).
    set (os' := foldl _ (complete_order id os) ids) in *. clearbody os'.
    unfold complete_order in IH.
    rewrite Forall2_fmap_l in IH. eapply Forall2_impl; [exact IH|].
    intros o o' (Hid & Hli & Hst & Hin). unfold set_completed in *.
    destruct (decide (order_id o = id)) as [Heq|Hne]; simpl in *.
    + repeat split; [done|done|auto|auto].
    + repeat split; [done|done|done|].
      intros [?|?]%elem_of_cons; [done|auto].
Qed.




Lemma process_order_malformed st o :
  line_items o = Malformed →
  process_order st o = Ok (st.1, st.2 ++ [InvalidJSON (order_id o)]).
Proof. unfold process_order. by intros ->. Qed.

Lemma process_order_payload st o items :
  line_items o = Payload items →
  process_order st o
  = ps ← foldM process_item (products st.1) items;
    Ok (Database ps (complete_order (order_id o) (orders st.1)), st.2).
Proof. unfold process_order. by intros ->. Qed.

Lemma decoded_ids_cons o batch :
  decoded_ids (o :: batch)
  = (if is_json (line_items o) then [order_id o] else []) ++ decoded_ids batch.
Proof.
  unfold decoded_ids. rewrite filter_cons.
  by destruct (is_json (line_items o)).
Qed.

Lemma invalid_json_flashes_cons o batch :
  invalid_json_flashes (o :: batch)
  = (if is_json (line_items o) then [] else [InvalidJSON (order_id o)])
    ++ invalid_json_flashes batch.
Proof.
  unfold invalid_json_flashes. rewrite filter_cons.
  by destruct (is_json (line_items o)).
Qed.


(** What a batch that went through has done to the orders and the flashes. *)
Lemma process_batch_orders batch db fl db1 fl1 :
  foldM process_order (db, fl) batch = Ok (db1, fl1) →
  orders db1 = foldl (λ os' id, complete_order id os') (orders db) (decoded_ids batch)
  ∧ fl1 = fl ++ invalid_json_flashes batch.
Proof.
  revert db fl. induction batch as [|o batch IH]; intros db fl.
  - simpl. intros [= -> ->]. by rewrite app_nil_r.
  - rewrite foldM_cons, decoded_ids_cons, invalid_json_flashes_cons.
    destruct (line_items o) as [|items] eqn:Hli.
    + rewrite (process_order_malformed _ _ Hli). simpl.
      intros [Hos ->]%IH. split; [done|]. by rewrite <- app_assoc.
    + rewrite (process_order_payload _ _ _ Hli). simpl.
      destruct (foldM process_item (products db) items) as [ps|e]; [|done]. simpl.
      intros [Hos ->]%IH. done.
Qed.



(** A product synthesized by one line item is there for the next: the second
    line item for product 9 needs neither name nor price. *)
Example process_orders_restock :
  handled_in_turn (dom (products restock_shop)) (pending_items restock_shop) = true
  ∧ process_orders restock_shop
    = Ok (Database {[9 := Product "nut" (1 # 1) (-5)]}
                   [new_order 1 "completed"
                      (Payload [LineItem (Some 9) (Some 2) (Some "nut") (Some (1 # 1));
                                item 9 3])],
          [OrdersProcessed]).
Proof. split; vm_compute; reflexivity. Qed.


(** * Further properties of the forecasting pipeline *)

(** ** A closed form of [main] *)

Lemma observed_observations items product_data :
  Forall2 observed items product_data → product_data = observations items.
Proof.
  unfold observations.
  induction 1 as [|it [pid q] items obs [Hp Hq] _ IH]; [done|].
  simpl in *. rewrite Hp, Hq. simpl. by f_equal.
Qed.

Lemma product_sales_of_Ok_well_formed df sales :
  product_sales_of df = Ok sales → well_formed df = true.
Proof.
  unfold product_sales_of, line_items_column, well_formed.
  case_decide as Hcol; [|done]. simpl.
  destruct (mapM loads_cell _) as [parsed|e] eqn:Hparsed; [|done]. simpl.
  unfold extract.
  destruct (mapM (mapM observation) parsed) as [per_order|e] eqn:Hper; [|done].
  intros _. apply Is_true_true, andb_True. split; [by apply bool_decide_pack|].
  apply forallb_True. apply mapM_Ok in Hparsed, Hper.
  apply Forall2_fmap_l in Hparsed.
  eapply Forall2_Forall_l; [exact Hparsed|].
  eapply Forall2_Forall_l; [exact Hper|].
  apply Forall_true. intros per its Hits r Hr. simpl in Hr.
  apply loads_cell_Ok in Hr. unfold decodes. rewrite Hr.
  apply forallb_True. apply mapM_Ok in Hits.
  eapply Forall2_Forall_l; [exact Hits|].
  apply Forall_true. intros o it [Hp Hq]%observation_Ok.
  unfold complete. apply andb_True. split; apply bool_decide_pack; eauto.
Qed.

Lemma predict_all_nil : predict_all [] = ∅.
Proof. done. Qed.

(** What [main] returns, in one expression: the predictions for the
    observations of the dataset when the dataset is well formed, the empty
    mapping otherwise. *)
Lemma main_closed_form w orders_file df :
  files w !! orders_file = Some (CsvFile df) →
  (main w orders_file).1
  = Ok (if well_formed df
        then predict_all (agg (groups (observations (dataset_items df))))
        else ∅).
Proof.
  intros Hfile. unfold main, main_try. rewrite (read_csv_lookup _ _ _ Hfile). simpl.
  destruct (well_formed df) eqn:Hwf.
  - destruct (product_sales_of_well_formed _ Hwf) as (obs & Hobs & ->).
    apply observed_observations in Hobs as <-.
    unfold aggregate. by destruct obs.
  - destruct (product_sales_of df) as [sales|e] eqn:Hsales; [|done].
    apply product_sales_of_Ok_well_formed in Hsales. congruence.
Qed.

(** ** The order of the rows does not matter *)

Lemma total_Permutation qs qs' : qs ≡ₚ qs' → total qs = total qs'.
Proof. unfold total. induction 1; simpl; lia. Qed.

Lemma sum_Permutation qs qs' : qs ≡ₚ qs' → sum qs = sum qs'.
Proof. intros Hp. by rewrite !sum_total, (total_Permutation _ _ Hp). Qed.

Lemma quantities_of_Permutation k obs obs' :
  obs ≡ₚ obs' → quantities_of k obs ≡ₚ quantities_of k obs'.
Proof. unfold quantities_of. by intros ->. Qed.

Lemma mean_Permutation qs qs' : qs ≡ₚ qs' → mean qs = mean qs'.
Proof.
  intros Hp. unfold mean, count.
  by rewrite (total_Permutation _ _ Hp), (Permutation_length Hp).
Qed.

Lemma agg_by_keys gs :
  NoDup gs.*1 →
  agg gs = (λ k, SalesRow k (sum (group k gs)) (mean (group k gs))
                          (count (group k gs))) <$> gs.*1.
Proof.
  unfold agg. induction gs as [|[k qs] gs IH]; [done|].
  intros [Hk Hnd]%NoDup_cons. rewrite !fmap_cons. simpl.
  rewrite decide_True by done. f_equal.
  rewrite IH by done. apply list_fmap_ext. intros i k' Hk'.
  rewrite decide_False; [done|].
  intros ->. apply Hk. by eapply list_elem_of_lookup_2.
Qed.

Lemma groups_keys_Permutation obs obs' :
  obs ≡ₚ obs' → (groups obs).*1 = (groups obs').*1.
Proof.
  intros Hp. apply (StronglySorted_unique_strong Z.lt).
  - intros; lia.
  - apply groups_sorted.
  - apply groups_sorted.
  - apply NoDup_Permutation.
    + apply sorted_keys_NoDup, groups_sorted.
    + apply sorted_keys_NoDup, groups_sorted.
    + intros k. rewrite !groups_keys. by rewrite Hp.
Qed.

Lemma agg_groups_Permutation obs obs' :
  obs ≡ₚ obs' → agg (groups obs) = agg (groups obs').
Proof.
  intros Hp.
  rewrite !agg_by_keys by apply sorted_keys_NoDup, groups_sorted.
  rewrite (groups_keys_Permutation _ _ Hp).
  apply list_fmap_ext. intros i k _. rewrite !groups_group.
  pose proof (quantities_of_Permutation k _ _ Hp) as Hq.
  unfold count.
  by rewrite (sum_Permutation _ _ Hq), (mean_Permutation _ _ Hq),
    (Permutation_length Hq).
Qed.

Lemma well_formed_Permutation header rs rs' :
  rs ≡ₚ rs' → well_formed (OrdersDf header rs) = well_formed (OrdersDf header rs').
Proof.
  intros Hp. unfold well_formed. simpl. f_equal.
  apply eq_bool_prop_intro. rewrite !forallb_True. by rewrite Hp.
Qed.

(** X1: within the magnitudes for which float64 holds every partial sum of
    the quantities exactly (product ids below [2^53], quantities adding up to
    less than [2^53] in absolute value), the mapping [main] returns does not
    depend on the order of the rows of the orders file. *)
Theorem main_row_order_irrelevant w w' orders_file header rs rs' :
  files w !! orders_file = Some (CsvFile (OrdersDf header rs)) →
  files w' !! orders_file = Some (CsvFile (OrdersDf header rs')) →
  within_magnitude (2 ^ 53) (OrdersDf header rs) = true →
  rs ≡ₚ rs' →
  (main w orders_file).1 = (main w' orders_file).1.
Proof.
  intros Hw Hw' _ Hp.
  rewrite (main_closed_form _ _ _ Hw), (main_closed_form _ _ _ Hw').
  rewrite (well_formed_Permutation _ _ _ Hp).
  destruct (well_formed (OrdersDf header rs')); [|done].
  do 2 f_equal. apply agg_groups_Permutation.
  unfold observations, dataset_items. simpl. by rewrite Hp.
Qed.

Lemma main_row_order_irrelevant_witness :
  (main (World {["orders.csv" := CsvFile example_df]} []) "orders.csv").1
  = (main (World {["orders.csv" :=
        CsvFile (OrdersDf orders_header
                   [OrderRow 2 (Text (Payload [item 1 20; item 2 5]));
                    OrderRow 1 (Text (Payload [item 1 10]))])]} []) "orders.csv").1.
Proof.
  eapply main_row_order_irrelevant.
  - vm_compute. reflexivity.
  - vm_compute. reflexivity.
  - vm_compute. reflexivity.
  - apply perm_swap.
Defined.

(** ** A line item without a required field *)






(** ** How far the recommendation is from 1.5 times the average *)

Lemma main_try_predicted_stock fs orders_file predictions pid p :
  main_try fs orders_file = Ok predictions →
  predictions !! pid = Some p →
  p_predicted_stock p = int (p_avg_quantity p * (3 # 2)).
Proof.
  intros (df & sales & _ & _ & ->)%main_try_Ok.
  by intros (row & _ & _ & ->)%predict_all_lookup.
Qed.

Lemma int_within_one x :
  (x - 1 < inject_Z (int x))%Q ∧ (inject_Z (int x) < x + 1)%Q.
Proof.
  destruct x as [n d]. unfold int, Qlt, Qminus, Qplus, Qopp, inject_Z. simpl.
  pose proof (Z.quot_rem' n (Z.pos d)) as Hqr.
  pose proof (Z.rem_bound_abs n (Z.pos d)) as Hr.
  split; nia.
Qed.

(** X3: within the magnitudes for which float64 rounds 1.5 times the
    average to the same integer part (product ids below [2^53], quantities
    adding up to less than [2^50] in absolute value), the recommended stock
    is less than one unit away from 1.5 times the mean quantity of the
    product, and it never exceeds 1.5 times a non-negative mean. *)
Theorem predicted_stock_within_one fs orders_file df predictions pid p :
  read_csv fs orders_file = Ok df →
  within_magnitude (2 ^ 50) df = true →
  main_try fs orders_file = Ok predictions →
  predictions !! pid = Some p →
  (mean_quantity pid df * (3 # 2) - 1 < inject_Z (p_predicted_stock p))%Q
  ∧ (inject_Z (p_predicted_stock p) < mean_quantity pid df * (3 # 2) + 1)%Q
  ∧ ((0 <= mean_quantity pid df)%Q →
     (inject_Z (p_predicted_stock p) <= mean_quantity pid df * (3 # 2))%Q).
Proof.
  intros Hread _ Hmain Hp.
  destruct (main_try_predicted_stock_mean _ _ _ _ _ _ Hread Hmain Hp) as [_ ->].
  destruct (int_within_one (mean_quantity pid df * (3 # 2))) as [Hlo Hhi].
  do 2 (split; [done|]). intros Hpos.
  rewrite int_floor; [apply Qfloor_le|].
  apply Qmult_le_0_compat; [done|]. by unfold Qle.
Qed.

Lemma predicted_stock_within_one_witness :
  (mean_quantity 2 (OrdersDf orders_header [OrderRow 1 (Text (Payload [item 2 5]))])
   * (3 # 2) - 1 < inject_Z (p_predicted_stock (Prediction 5 (5 # 1) 7)))%Q
  ∧ (inject_Z (p_predicted_stock (Prediction 5 (5 # 1) 7))
     < mean_quantity 2 (OrdersDf orders_header [OrderRow 1 (Text (Payload [item 2 5]))])
       * (3 # 2) + 1)%Q
  ∧ ((0 <= mean_quantity 2 (OrdersDf orders_header [OrderRow 1 (Text (Payload [item 2 5]))]))%Q →
     (inject_Z (p_predicted_stock (Prediction 5 (5 # 1) 7))
      <= mean_quantity 2 (OrdersDf orders_header [OrderRow 1 (Text (Payload [item 2 5]))])
         * (3 # 2))%Q).
Proof.
  apply (predicted_stock_within_one (one_order [item 2 5]) "orders.csv"
           (OrdersDf orders_header [OrderRow 1 (Text (Payload [item 2 5]))])
           {[2 := Prediction 5 (5 # 1) 7]} 2 (Prediction 5 (5 # 1) 7)).
  - vm_compute. reflexivity.
  - vm_compute. reflexivity.
  - vm_compute. reflexivity.
  - vm_compute. reflexivity.
Defined.

Lemma well_formed_items_complete df it :
  well_formed df = true → it ∈ dataset_items df → complete it.
Proof.
  unfold well_formed. intros Hwf%Is_true_true.
  apply andb_True in Hwf as [_ Hrows%forallb_True].
  unfold dataset_items. intros (r & Hit & Hr)%list_elem_of_bind.
  eapply Forall_forall in Hrows; [|exact Hr]. simpl in Hrows.
  unfold row_items in Hit. destruct (row_line_items r) as [|[|items]];
    try by apply elem_of_nil in Hit.
  simpl in Hrows. apply forallb_True in Hrows.
  by eapply Forall_forall in Hrows.
Qed.

Lemma omap_quantity_length items :
  Forall (λ it, complete it) items → length (omap li_quantity items) = length items.
Proof.
  induction 1 as [|it items Hit _ IH]; [done|].
  unfold complete in Hit. apply andb_True in Hit as [_ [q Hq]%bool_decide_unpack].
  simpl. rewrite Hq. simpl. by f_equal.
Qed.

Lemma total_at_least_length qs :
  Forall (Z.le 1) qs → Z.of_nat (length qs) ≤ total qs.
Proof.
  unfold total. induction 1 as [|q qs Hq _ IH]; [done|].
  cbn [foldr length]. lia.
Qed.

(** X4: within the magnitudes for which float64 holds the ids and every
    partial sum of the quantities exactly (product ids below [2^53],
    quantities adding up to less than [2^53] in absolute value), a product
    all of whose line items have a quantity of at least 1 is recommended a
    stock of at least 1. *)
Theorem predicted_stock_positive fs orders_file predictions df pid p :
  main_try fs orders_file = Ok predictions →
  read_csv fs orders_file = Ok df →
  within_magnitude (2 ^ 53) df = true →
  predictions !! pid = Some p →
  Forall (Z.le 1) (omap li_quantity (items_of pid df)) →
  1 ≤ p_predicted_stock p.
Proof.
  intros Hmain Hread _ Hp Hq.
  rewrite (main_try_predicted_stock _ _ _ _ _ Hmain Hp).
  destruct (main_try_aggregates _ _ _ Hmain) as (df' & sales & Hread' & Hsales & Hrows).
  rewrite Hread in Hread'. injection Hread' as <-.
  destruct (Hrows _ _ Hp) as (row & _ & _ & _ & Hfreq & Hpos & Havg & _ & ->).
  rewrite Hfreq in Hpos.
  assert (Hle : occurrences pid df ≤ quantity_total pid df).
  { unfold quantity_total, occurrences.
    rewrite <- (omap_quantity_length (items_of pid df)).
    - by apply total_at_least_length.
    - apply Forall_forall. intros it [_ Hit]%list_elem_of_filter.
      eapply well_formed_items_complete; [|exact Hit].
      by eapply product_sales_of_Ok_well_formed. }
  assert (Hone : (1 <= avg_quantity row)%Q).
  { rewrite Havg. apply Qle_shift_div_l.
    - change 0%Q with (inject_Z 0). by rewrite <- Zlt_Qlt.
    - rewrite Qmult_1_l. by rewrite <- Zle_Qle. }
  assert (Hmul : (1 <= avg_quantity row * (3 # 2))%Q).
  { destruct (avg_quantity row) as [n d]. revert Hone.
    unfold Qle, Qmult. simpl. lia. }
  rewrite int_floor.
  - change 1 with (Qfloor 1). by apply Qfloor_resp_le.
  - eapply Qle_trans; [|exact Hmul]. done.
Qed.

Lemma predicted_stock_positive_witness :
  1 ≤ p_predicted_stock (Prediction 5 (5 # 1) 7).
Proof.
  apply (predicted_stock_positive (one_order [item 2 5]) "orders.csv"
           {[2 := Prediction 5 (5 # 1) 7]}
           (OrdersDf orders_header [OrderRow 1 (Text (Payload [item 2 5]))])
           2 (Prediction 5 (5 # 1) 7)).
  - vm_compute. reflexivity.
  - vm_compute. reflexivity.
  - vm_compute. reflexivity.
  - vm_compute. reflexivity.
  - vm_compute. repeat constructor. discriminate.
Defined.

(** * Further properties of [prepare_data] *)

Lemma series_get_fmap {A} (f : list Z → A) k gs :
  series_get k ((λ g, (g.1, f g.2)) <$> gs)
  = if decide (k ∈ gs.*1) then Some (f (group k gs)) else None.
Proof.
  induction gs as [|[k' qs] gs IH].
  - destruct (decide (k ∈ ([] : list (Z * list Z)).*1)) as [Hin|_]; [|done].
    by apply elem_of_nil in Hin.
  - rewrite !fmap_cons. cbn [series_get group fst snd].
    destruct (decide (k = k')) as [->|Hne].
    + destruct (decide (k' ∈ k' :: gs.*1)) as [_|Hnin]; [done|].
      destruct Hnin. left.
    + rewrite IH. destruct (decide (k ∈ gs.*1)) as [Hin|Hnin];
        destruct (decide (k ∈ k' :: gs.*1)) as [Hin'|Hnin']; try done.
      * destruct Hnin'. by right.
      * by apply elem_of_cons in Hin' as [?|?].
Qed.

Lemma quantities_of_bound k product_data :
  total (Z.abs <$> quantities_of k product_data) ≤ total (Z.abs <$> product_data.*2).
Proof.
  unfold quantities_of. induction product_data as [|[k' q] obs IH]; [done|].
  rewrite filter_cons. simpl decide. case_decide.
  - rewrite !fmap_cons, !total_cons. simpl. lia.
  - rewrite !fmap_cons, !total_cons. simpl. lia.
Qed.

(** X5: take observations whose quantities have absolute values adding up
    to less than [2^53], so that neither the int64 sums wrap nor the float64
    means round.  In the frame [prepare_data] builds, every row carries a
    product id and the total of that product, but the [avg_order_size] and
    the [order_frequency] of row number [i] are the mean and the count of
    the product whose id is [i], and NaN when no product has that id. *)
Theorem prepare_aggregate_alignment product_data prepared i r :
  total (Z.abs <$> product_data.*2) < 2 ^ 53 →
  prepare_aggregate product_data = Ok prepared →
  prepared !! i = Some r →
  pr_product_id r ∈ product_data.*1
  ∧ pr_quantity r = total (quantities_of (pr_product_id r) product_data)
  ∧ pr_avg_order_size r
    = (if decide (Z.of_nat i ∈ product_data.*1)
       then Some (mean (quantities_of (Z.of_nat i) product_data)) else None)
  ∧ pr_order_frequency r
    = (if decide (Z.of_nat i ∈ product_data.*1)
       then Some (count (quantities_of (Z.of_nat i) product_data)) else None).
Proof.
  intros Hbound. unfold prepare_aggregate, groupby_product_id.
  destruct product_data as [|o obs]; [done|]. simpl.
  set (product_data := o :: obs) in *. intros [= <-].
  rewrite list_lookup_imap, list_lookup_fmap.
  destruct (groups product_data !! i) as [[k qs]|] eqn:Hi; [|done].
  simpl. intros [= <-]. simpl.
  apply list_elem_of_lookup_2, groups_elem_of in Hi as [-> Hk].
  split; [done|]. split.
  { apply sum_exact. pose proof (quantities_of_bound k product_data). lia. }
  rewrite !series_get_fmap.
  destruct (decide (Z.of_nat i ∈ (groups product_data).*1)) as [Hin|Hnin].
  - rewrite groups_keys in Hin. rewrite !decide_True by done.
    by rewrite groups_group.
  - rewrite groups_keys in Hnin. by rewrite !decide_False by done.
Qed.

Lemma prepare_aggregate_alignment_witness :
  2 ∈ example_observations.*1
  ∧ 5 = total (quantities_of 2 example_observations)
  ∧ Some (15 # 1)
    = (if decide (Z.of_nat 1 ∈ example_observations.*1)
       then Some (mean (quantities_of (Z.of_nat 1) example_observations)) else None)
  ∧ Some 2
    = (if decide (Z.of_nat 1 ∈ example_observations.*1)
       then Some (count (quantities_of (Z.of_nat 1) example_observations)) else None).
Proof.
  apply (prepare_aggregate_alignment example_observations
           [PreparedRow 1 30 None None; PreparedRow 2 5 (Some (15 # 1)) (Some 2)]
           1%nat (PreparedRow 2 5 (Some (15 # 1)) (Some 2))).
  - vm_compute. reflexivity.
  - vm_compute. reflexivity.
  - reflexivity.
Defined.




(** X7: whenever [prepare_data] returns a frame, the aggregation stage of
    [main] succeeds on the same dataset, and the two agree row by row on the
    product ids and on the totals. *)
Theorem prepare_data_totals_agree df prepared :
  prepare_data df = Ok prepared →
  ∃ sales,
    product_sales_of df = Ok sales
    ∧ (λ r, (pr_product_id r, pr_quantity r)) <$> prepared
      = (λ r, (product_id r, total_quantity r)) <$> sales.
Proof.
  unfold prepare_data, product_sales_of.
  destruct (line_items_column df) as [cells|e]; [|done]. simpl.
  destruct (mapM loads_cell cells) as [parsed|e]; [|done]. simpl.
  destruct (extract parsed) as [product_data|e]; [|done]. simpl.
  intros Hprep.
  destruct (aggregate product_data) as [sales|e] eqn:Hagg.
  - exists sales. split; [done|]. by eapply prepare_aggregate_totals.
  - revert Hprep Hagg. unfold prepare_aggregate, aggregate.
    by destruct (groupby_product_id product_data).
Qed.

Lemma prepare_data_totals_agree_witness :
  ∃ sales,
    product_sales_of example_df = Ok sales
    ∧ (λ r, (pr_product_id r, pr_quantity r))
        <$> [PreparedRow 1 30 None None; PreparedRow 2 5 (Some (15 # 1)) (Some 2)]
      = (λ r, (product_id r, total_quantity r)) <$> sales.
Proof.
  apply (prepare_data_totals_agree example_df).
  vm_compute. reflexivity.
Defined.

(** The stateful [prepare_data] returns what [prepare_data] returns. *)
Lemma mapM_FromCsv cells :
  mapM loads_frame_cell (FromCsv <$> cells) = mapM loads_cell cells.
Proof.
  induction cells as [|c cells IH]; [done|].
  rewrite fmap_cons. simpl. by rewrite IH.
Qed.

Lemma prepare_data_inplace_result df :
  (prepare_data_inplace (frame_of df)).1 = prepare_data df.
Proof.
  unfold prepare_data_inplace, prepare_data, line_items_column, frame_of. simpl.
  case_decide; [|done]. simpl. rewrite mapM_FromCsv.
  by destruct (mapM loads_cell _).
Qed.

Lemma mapM_Decoded parsed :
  parsed ≠ [] → mapM loads_frame_cell (Decoded <$> parsed) = Raise TypeError.
Proof. by destruct parsed. Qed.

(** X8: [prepare_data] cannot be applied twice to one frame.  A call that
    returns a frame has replaced the [line_items] column by the decoded
    lists, and a second call on that frame raises [TypeError]. *)
Theorem prepare_data_not_reentrant df prepared :
  prepare_data df = Ok prepared →
  (prepare_data_inplace (prepare_data_inplace (frame_of df)).2).1 = Raise TypeError.
Proof.
  unfold prepare_data, prepare_data_inplace, line_items_column, frame_of. simpl.
  case_decide; [|done]. simpl. rewrite mapM_FromCsv.
  destruct (mapM loads_cell _) as [parsed|e]; [|done]. simpl.
  rewrite decide_True by done.
  destruct parsed as [|items parsed]; [|done].
  simpl. by intros [=].
Qed.

Lemma prepare_data_not_reentrant_witness :
  (prepare_data_inplace (prepare_data_inplace (frame_of example_df)).2).1
  = Raise TypeError.
Proof.
  apply (prepare_data_not_reentrant example_df
           [PreparedRow 1 30 None None; PreparedRow 2 5 (Some (15 # 1)) (Some 2)]).
  vm_compute. reflexivity.
Defined.

(** * Further properties of the learned mode *)

Lemma foldl_insert_lookup {A B} (key : B → Z) (val : B → A) (l : list B) k v :
  foldl (λ m e, <[key e := val e]> m) (∅ : gmap Z A) l !! k = Some v →
  ∃ e, e ∈ l ∧ key e = k ∧ v = val e.
Proof.
  induction l as [|e l IH] using rev_ind.
  - simpl. by rewrite lookup_empty.
  - rewrite foldl_snoc. intros [[<- <-]|[Hne Hv]]%lookup_insert_Some.
    + exists e. rewrite elem_of_app, list_elem_of_singleton. auto.
    + destruct (IH Hv) as (e' & Hin & Hk & Hval).
      exists e'. rewrite elem_of_app. auto.
Qed.

(** X9: when [predict_stock_needs] returns, every entry of the dictionary is
    keyed by the index label of a row of [new_data], holds the
    [avg_order_size] of that row, and all entries carry one and the same
    confidence. *)
Theorem predict_stock_needs_entries fs new_data out :
  predict_stock_needs fs new_data = Ok out →
  ∃ confidence, ∀ label e,
    out !! label = Some e →
    sp_confidence e = confidence
    ∧ ∃ row, (label, row) ∈ new_data
             ∧ sp_avg_quantity e = pr_avg_order_size row.
Proof.
  unfold predict_stock_needs.
  destruct (joblib_load fs "stock_prediction_model.pkl") as [model|?]; [|done]. simpl.
  destruct (joblib_load fs "stock_scaler.pkl") as [scaler|?]; [|done]. simpl.
  destruct (call_transform scaler _) as [scaled|?]; [|done]. simpl.
  destruct (call_predict model scaled) as [predictions|?]; [|done]. simpl.
  destruct (call_score model scaled _) as [confidence|?]; [|done]. simpl.
  intros [= <-]. exists confidence. intros label e He.
  apply (foldl_insert_lookup (λ e : Z * prepared_row * Q, e.1.1)
           (λ e, StockPrediction (pr_avg_order_size e.1.2) e.2 confidence)) in He
    as ([[label' row] pred] & Hin & <- & ->).
  simpl. split; [done|]. exists row. split; [|done].
  by eapply elem_of_zip_l.
Qed.

Lemma predict_stock_needs_entries_witness :
  ∃ confidence, ∀ label e,
    ({[0 := StockPrediction None 1%Q 1%Q]} : gmap Z stock_prediction) !! label = Some e →
    sp_confidence e = confidence
    ∧ ∃ row, (label, row) ∈ [(0, PreparedRow 1 30 None None)]
             ∧ sp_avg_quantity e = pr_avg_order_size row.
Proof.
  apply (predict_stock_needs_entries
           {["stock_prediction_model.pkl" := Pickle (Model constant_model);
             "stock_scaler.pkl" := Pickle (Scaler identity_scaler)]}
           [(0, PreparedRow 1 30 None None)]).
  vm_compute. reflexivity.
Defined.

(** X10: a training that returns has stored the fitted model and the fitted
    scaler under the two paths [predict_stock_needs] loads from, has touched
    no other file, and so leaves the forecast of [main] for any other orders
    file as it was. *)
Theorem training_persists_artifacts split fit_transform fit fs data model fs'
    orders_file :
  train_stock_prediction_model split fit_transform fit fs data = Ok (model, fs') →
  orders_file ≠ "stock_prediction_model.pkl" →
  orders_file ≠ "stock_scaler.pkl" →
  joblib_load fs' "stock_prediction_model.pkl" = Ok (Model model)
  ∧ (∃ scaler, joblib_load fs' "stock_scaler.pkl" = Ok (Scaler scaler))
  ∧ fs' !! orders_file = fs !! orders_file
  ∧ main_try fs' orders_file = main_try fs orders_file.
Proof.
  unfold train_stock_prediction_model.
  destruct (split _ _) as [train|?]; [|done]. simpl.
  destruct (fit_transform _) as [scaled|?]; [|done]. simpl.
  destruct (fit _ _) as [model'|?]; [|done]. simpl.
  intros [= <- <-] Hm Hs.
  assert (Hsame : <["stock_scaler.pkl" := Pickle (Scaler scaled.1)]>
                    (<["stock_prediction_model.pkl" := Pickle (Model model')]> fs)
                  !! orders_file = fs !! orders_file).
  { by rewrite !lookup_insert_ne by done. }
  split; [|split; [|split]].
  - unfold joblib_load. rewrite lookup_insert_ne by done.
    by rewrite lookup_insert_eq.
  - exists scaled.1. unfold joblib_load. by rewrite lookup_insert_eq.
  - done.
  - unfold main_try, read_csv. by rewrite Hsame.
Qed.

Lemma training_persists_artifacts_witness :
  joblib_load trained_disk "stock_prediction_model.pkl" = Ok (Model constant_model)
  ∧ (∃ scaler, joblib_load trained_disk "stock_scaler.pkl" = Ok (Scaler scaler))
  ∧ trained_disk !! "orders.csv" = (∅ : gmap string file) !! "orders.csv"
  ∧ main_try trained_disk "orders.csv" = main_try ∅ "orders.csv".
Proof.
  apply (training_persists_artifacts
           (λ X y, Ok (X, y))
           (λ _, Ok (identity_scaler, []))
           (λ _ _, Ok constant_model)
           ∅ [PreparedRow 1 30 None None]).
  - reflexivity.
  - discriminate.
  - discriminate.
Defined.

(** * Further properties of [process_orders] *)

Lemma process_batch_malformed batch db fl :
  Forall (λ o, is_json (line_items o) = false) batch →
  foldM process_order (db, fl) batch = Ok (db, fl ++ invalid_json_flashes batch).
Proof.
  intros Hall. revert fl. induction Hall as [|o batch Ho _ IH]; intros fl.
  - simpl. by rewrite app_nil_r.
  - rewrite foldM_cons, invalid_json_flashes_cons, Ho.
    destruct (line_items o) as [|items] eqn:Hli; [|done].
    rewrite (process_order_malformed _ _ Hli). simpl.
    rewrite IH. by rewrite <- app_assoc.
Qed.

(** After a request that went through, the orders still pending are those
    whose [line_items] are not JSON. *)
Lemma pending_after_processing db st :
  foldM process_order (db, []) (pending db) = Ok st →
  Forall (λ o, is_json (line_items o) = false) (pending st.1).
Proof.
  destruct st as [db1 fl1]. intros [Hos _]%process_batch_orders. simpl.
  pose proof (complete_orders_spec (decoded_ids (pending db)) (orders db)) as Hall.
  rewrite <- Hos in Hall.
  apply Forall_forall. intros o' [Hst Ho']%list_elem_of_filter.
  apply list_elem_of_lookup in Ho' as [i Ho'].
  destruct (Forall2_lookup_r _ _ _ _ _ Hall Ho') as (o & Ho & Hid & Hli & Hdone & Hin).
  destruct (is_json (line_items o')) eqn:Hjson; [|done].
  destruct Hst. destruct (decide (status o = "completed")) as [Hc|Hnc]; [auto|].
  apply Hin. unfold decoded_ids. apply list_elem_of_fmap. exists o. split; [done|].
  apply list_elem_of_filter. split; [by rewrite <- Hli, Hjson|].
  apply list_elem_of_filter. split; [done|]. by eapply list_elem_of_lookup_2.
Qed.

(** X11: no order is deducted twice.  After a request that went through, a
    second request goes through as well and changes neither the products nor
    the orders. *)
Theorem process_orders_second_run_changes_nothing db db' flashes :
  process_orders db = Ok (db', flashes) →
  ∃ flashes', process_orders db' = Ok (db', flashes').
Proof.
  unfold process_orders.
  destruct (foldM process_order (db, []) (pending db)) as [st|e] eqn:Hrun; [|done].
  simpl. intros [= <- <-].
  apply pending_after_processing in Hrun.
  rewrite (process_batch_malformed _ _ _ Hrun). simpl. eauto.
Qed.

Lemma process_orders_second_run_changes_nothing_witness :
  ∃ flashes', process_orders shop_processed = Ok (shop_processed, flashes').
Proof.
  apply (process_orders_second_run_changes_nothing shop shop_processed
           [InvalidJSON 2; OrdersProcessed]).
  vm_compute. reflexivity.
Defined.

(** X12: a request that went through has flashed exactly one "Invalid JSON"
    message for every pending order whose [line_items] are not JSON, in the
    order of the table, followed by the success message. *)
Theorem process_orders_flashes db db' flashes :
  process_orders db = Ok (db', flashes) →
  flashes = invalid_json_flashes (pending db) ++ [OrdersProcessed].
Proof.
  unfold process_orders.
  destruct (foldM process_order (db, []) (pending db)) as [[db1 fl1]|e] eqn:Hrun;
    [|done].
  simpl. intros [= <- <-].
  by apply process_batch_orders in Hrun as [_ ->].
Qed.

Lemma process_orders_flashes_witness :
  [InvalidJSON 2; OrdersProcessed]
  = invalid_json_flashes (pending shop) ++ [OrdersProcessed].
Proof.
  apply (process_orders_flashes shop shop_processed).
  vm_compute. reflexivity.
Defined.

Lemma keeps_products_refl ps : keeps_products ps ps.
Proof. intros k p Hp. by exists p. Qed.

Lemma keeps_products_trans ps1 ps2 ps3 :
  keeps_products ps1 ps2 → keeps_products ps2 ps3 → keeps_products ps1 ps3.
Proof.
  intros H12 H23 k p Hp.
  destruct (H12 _ _ Hp) as (p2 & Hp2 & Hn2 & Hc2).
  destruct (H23 _ _ Hp2) as (p3 & Hp3 & Hn3 & Hc3).
  exists p3. split; [done|]. split; congruence.
Qed.

Lemma process_item_keeps ps it ps' :
  process_item ps it = Ok ps' → keeps_products ps ps'.
Proof.
  unfold process_item, subscript, deduct.
  destruct it as [[pid|] [q|] nm pr]; simpl; try done.
  destruct (bind_int q) as [q'|?] eqn:Hbq; simpl; [|done].
  apply bind_int_inv in Hbq as ->.
  destruct (bind_int pid) as [pid'|?] eqn:Hbp; simpl; [|done].
  apply bind_int_inv in Hbp as ->.
  destruct (ps !! pid) as [p0|] eqn:Hp0.
  - rewrite lookup_alter_eq, Hp0. simpl. intros [= <-] k p Hp.
    destruct (decide (k = pid)) as [->|Hne].
    + rewrite lookup_alter_eq, Hp0. simpl. eexists. split; [done|].
      by replace p with p0 by congruence.
    + rewrite lookup_alter_ne by done. by exists p.
  - rewrite lookup_alter_eq, Hp0. simpl.
    destruct nm as [n|]; [|done]. destruct pr as [c|]; [|done]. simpl.
    destruct (bind_int (- q)) as [stock|?]; simpl; [|done].
    intros [= <-] k p Hp.
    assert (k ≠ pid) by congruence.
    rewrite lookup_insert_ne, lookup_alter_ne by done. by exists p.
Qed.

Lemma process_items_keeps items ps ps' :
  foldM process_item ps items = Ok ps' → keeps_products ps ps'.
Proof.
  revert ps. induction items as [|it items IH]; intros ps.
  - simpl. intros [= <-]. apply keeps_products_refl.
  - rewrite foldM_cons.
    destruct (process_item ps it) as [ps1|e] eqn:Hit; [|done]. simpl.
    intros Hrest. eapply keeps_products_trans; [by eapply process_item_keeps|eauto].
Qed.

Lemma process_batch_keeps batch db fl st :
  foldM process_order (db, fl) batch = Ok st →
  keeps_products (products db) (products st.1).
Proof.
  revert db fl. induction batch as [|o batch IH]; intros db fl.
  - simpl. intros [= <-]. apply keeps_products_refl.
  - rewrite foldM_cons.
    destruct (line_items o) as [|items] eqn:Hli.
    + rewrite (process_order_malformed _ _ Hli). simpl. apply IH.
    + rewrite (process_order_payload _ _ _ Hli). simpl.
      destruct (foldM process_item (products db) items) as [ps|e] eqn:Hitems;
        [|done].
      simpl. intros Hrest%IH. simpl in Hrest.
      eapply keeps_products_trans; [by eapply process_items_keeps|done].
Qed.

(** X13: order processing never removes, renames or reprices a product: a
    product that was in the table before a request that went through is in
    the table afterwards, with the same name and the same price. *)
Theorem process_orders_keeps_products db db' flashes pid p :
  process_orders db = Ok (db', flashes) →
  products db !! pid = Some p →
  ∃ p', products db' !! pid = Some p' ∧ name p' = name p ∧ price p' = price p.
Proof.
  unfold process_orders.
  destruct (foldM process_order (db, []) (pending db)) as [st|e] eqn:Hrun; [|done].
  simpl. intros [= <- <-]. by apply (process_batch_keeps _ _ _ _ Hrun).
Qed.

Lemma process_orders_keeps_products_witness :
  ∃ p',
    products shop_processed !! 1 = Some p'
    ∧ name p' = name (Product "widget" (2 # 1) 5)
    ∧ price p' = price (Product "widget" (2 # 1) 5).
Proof.
  apply (process_orders_keeps_products shop shop_processed
           [InvalidJSON 2; OrdersProcessed] 1 (Product "widget" (2 # 1) 5)).
  - vm_compute. reflexivity.
  - vm_compute. reflexivity.
Defined.





(** * Properties of the form handlers *)

(** ** [remove_product] *)







(** ** [upload_orders] *)

Lemma insert_order_elem_of o os x :
  x ∈ insert_order o os ↔ x = o ∨ x ∈ os.
Proof.
  induction os as [|o' os IH]; simpl.
  - rewrite list_elem_of_singleton, elem_of_nil. tauto.
  - case_decide; rewrite !elem_of_cons; [tauto|]. rewrite IH. tauto.
Qed.

Lemma insert_order_ids o os :
  order_id <$> insert_order o os ≡ₚ order_id o :: (order_id <$> os).
Proof.
  induction os as [|o' os IH]; simpl; [done|].
  case_decide; [done|]. rewrite !fmap_cons, IH. apply perm_swap.
Qed.

(** What one row can do to the table. *)
Lemma upload_order_row_spec st row st' :
  upload_order_row st row = Ok st' →
  st'.1 = st.1
  ∨ ∃ items,
      up_line_items row = Text (Payload items)
      ∧ (up_order_id row ∉ order_id <$> st.1)
      ∧ st'.1 = insert_order
                  (Order (up_order_id row) (up_order_date row)
                         (up_customer_email row) (up_total_amount row)
                         (up_status row) (Payload items)) st.1.
Proof.
  unfold upload_order_row. destruct (all_fields row); [|intros [= <-]; by left].
  destruct (loads_cell (up_line_items row)) as [items|e] eqn:Hload.
  - apply loads_cell_Ok in Hload. simpl.
    destruct (bind_int (up_order_id row)) as [id|?] eqn:Hid; simpl; [|done].
    apply bind_int_inv in Hid as ->.
    case_decide as Hdup; intros [= <-]; [by left|].
    right. by exists items.
  - destruct e; try done. intros [= <-]. by left.
Qed.

Lemma upload_rows_invariant data os fl st :
  foldM upload_order_row (os, fl) data = Ok st →
  (∀ o, o ∈ os → o ∈ st.1)
  ∧ (∀ o, o ∈ st.1 →
       o ∈ os ∨ (is_json (line_items o)
                 ∧ (order_id o ∉ order_id <$> os)
                 ∧ ∃ row, row ∈ data ∧ up_order_id row = order_id o
                          ∧ up_line_items row = Text (line_items o)))
  ∧ (NoDup (order_id <$> os) → NoDup (order_id <$> st.1)).
Proof.
  revert os fl. induction data as [|row data IH]; intros os fl.
  - simpl. intros [= <-]. simpl. repeat split; auto.
  - rewrite foldM_cons.
    destruct (upload_order_row (os, fl) row) as [[os1 fl1]|e] eqn:Hrow; [|done].
    simpl. intros (Hkeep & Hnew & Hnd)%IH.
    apply upload_order_row_spec in Hrow as [Hsame|(items & Hli & Hfresh & Hins)];
      simpl in *; subst os1.
    + split; [done|]. split; [|done].
      intros o [?|(Hj & Hid & row' & Hrow' & Hrid & Hrli)]%Hnew; [by left|].
      right. do 2 (split; [done|]). exists row'. split; [by right|done].
    + split; [|split].
      * intros o Ho. apply Hkeep, insert_order_elem_of. by right.
      * intros o [[->|?]%insert_order_elem_of|(Hj & Hid & row' & Hrow' & Hrid & Hrli)]%Hnew.
        -- right. simpl. split; [done|]. split; [done|].
           exists row. split; [left|]. by rewrite Hli.
        -- by left.
        -- right. split; [done|]. split.
           ++ intros Hin. apply Hid. rewrite insert_order_ids. by right.
           ++ exists row'. split; [by right|done].
      * intros Hos. apply Hnd. rewrite insert_order_ids. by constructor.
Qed.

(** X16: an upload of orders that went through has overwritten nothing.
    Every order that was in the table is still there unchanged, the products
    are untouched, every new order has [line_items] that decode and comes from
    a row of the file whose [order_id] was not in the table, and the order ids
    of the table are still pairwise distinct. *)
Theorem upload_orders_adds_only_sound_orders db data db' notices :
  upload_order_rows db data = Ok (db', notices) →
  NoDup (order_id <$> orders db) →
  products db' = products db
  ∧ (∀ o, o ∈ orders db → o ∈ orders db')
  ∧ (∀ o, o ∈ orders db' →
       o ∈ orders db
       ∨ (is_json (line_items o)
          ∧ (order_id o ∉ order_id <$> orders db)
          ∧ ∃ row, row ∈ data ∧ up_order_id row = order_id o
                   ∧ up_line_items row = Text (line_items o)))
  ∧ NoDup (order_id <$> orders db').
Proof.
  unfold upload_order_rows.
  destruct (foldM upload_order_row (orders db, []) data) as [st|e] eqn:Hrun; [|done].
  simpl. intros [= <- <-] Hnd. simpl.
  destruct (upload_rows_invariant _ _ _ _ Hrun) as (Hkeep & Hnew & Hnd').
  auto.
Qed.

Example upload_order_rows_example :
  upload_order_rows shop upload_example
  = Ok (shop_uploaded,
        [OrderExists 1; InvalidLineItems 8; MissingFields 9; OrdersUploaded]).
Proof. vm_compute. reflexivity. Qed.

Lemma upload_orders_adds_only_sound_orders_witness :
  products shop_uploaded = products shop
  ∧ (∀ o, o ∈ orders shop → o ∈ orders shop_uploaded)
  ∧ (∀ o, o ∈ orders shop_uploaded →
       o ∈ orders shop
       ∨ (is_json (line_items o)
          ∧ (order_id o ∉ order_id <$> orders shop)
          ∧ ∃ row, row ∈ upload_example ∧ up_order_id row = order_id o
                   ∧ up_line_items row = Text (line_items o)))
  ∧ NoDup (order_id <$> orders shop_uploaded).
Proof.
  apply (upload_orders_adds_only_sound_orders shop upload_example shop_uploaded
           [OrderExists 1; InvalidLineItems 8; MissingFields 9; OrdersUploaded]).
  - vm_compute. reflexivity.
  - apply (bool_decide_unpack _). vm_compute. exact I.
Defined.

Lemma invalid_json_flashes_all_json batch :
  all_json batch → invalid_json_flashes batch = [].
Proof.
  unfold all_json, invalid_json_flashes. induction 1 as [|o batch Ho _ IH]; [done|].
  rewrite filter_cons. by destruct (is_json (line_items o)).
Qed.

(** X17: orders that came in through [upload_orders] never take the
    "Invalid JSON" branch of [process_orders].  If every order of the table
    decodes, this is still so after an upload that went through, and a
    following [process_orders] that goes through flashes its success message
    only. *)
Theorem uploaded_orders_always_decode db data db' notices db'' flashes :
  all_json (orders db) →
  upload_order_rows db data = Ok (db', notices) →
  process_orders db' = Ok (db'', flashes) →
  all_json (orders db') ∧ flashes = [OrdersProcessed].
Proof.
  intros Hjson Hup Hproc.
  assert (Hjson' : all_json (orders db')).
  { revert Hup. unfold upload_order_rows.
    destruct (foldM upload_order_row (orders db, []) data) as [st|e] eqn:Hrun;
      [|done].
    simpl. intros [= <- <-]. simpl.
    destruct (upload_rows_invariant _ _ _ _ Hrun) as (_ & Hnew & _).
    apply Forall_forall. intros o [Ho|[Ho _]]%Hnew; [|done].
    unfold all_json in Hjson. by eapply Forall_forall in Hjson. }
  split; [done|].
  revert Hproc. unfold process_orders.
  destruct (foldM process_order (db', []) (pending db')) as [[db1 fl1]|e] eqn:Hrun;
    [|done].
  simpl. intros [= <- <-].
  apply process_batch_orders in Hrun as [_ ->].
  rewrite invalid_json_flashes_all_json; [done|].
  unfold pending, all_json in *. apply Forall_forall.
  intros o [_ Ho]%list_elem_of_filter. by eapply Forall_forall in Hjson'.
Qed.

Lemma uploaded_orders_always_decode_witness :
  all_json (orders shop_uploaded_clean) ∧ [OrdersProcessed] = [OrdersProcessed].
Proof.
  apply (uploaded_orders_always_decode clean_shop
           [UploadRow 7 "2024-02-01" "c@d.e" (5 # 1) "pending" (Text (Payload [item 1 1]));
            UploadRow 8 "2024-02-01" "c@d.e" (5 # 1) "pending" (Text Malformed)]
           shop_uploaded_clean
           [InvalidLineItems 8; OrdersUploaded]
           shop_uploaded_processed [OrdersProcessed]).
  - repeat constructor.
  - vm_compute. reflexivity.
  - vm_compute. reflexivity.
Defined.





(** ** [add_product] *)

Lemma name_taken_spec product_name ps :
  name_taken product_name ps ↔ ∃ k p, ps !! k = Some p ∧ name p = product_name.
Proof.
  unfold name_taken. rewrite bool_decide_spec, list_elem_of_fmap. split.
  - intros ([k p] & -> & Hkp%elem_of_map_to_list). by exists k, p.
  - intros (k & p & Hkp & <-). exists (k, p). split; [done|].
    by apply elem_of_map_to_list.
Qed.

Lemma foldr_max_ge k ks x : x = k ∨ x ∈ ks → x ≤ foldr Z.max k ks.
Proof.
  induction ks as [|y ks IH]; simpl.
  - intros [->|?%elem_of_nil]; [lia|done].
  - intros [->|[->|Hx]%elem_of_cons]; [| |].
    + specialize (IH (or_introl eq_refl)). lia.
    + lia.
    + specialize (IH (or_intror Hx)). lia.
Qed.

Lemma next_rowid_fresh ps : ps !! next_rowid ps = None.
Proof.
  destruct (ps !! next_rowid ps) as [p|] eqn:Hp; [|done].
  assert (Hin : next_rowid ps ∈ (map_to_list ps).*1).
  { apply list_elem_of_fmap. exists (next_rowid ps, p). split; [done|].
    by apply elem_of_map_to_list. }
  revert Hin. unfold next_rowid.
  destruct ((map_to_list ps).*1) as [|k ks]; [by intros ?%elem_of_nil|].
  intros Hin%elem_of_cons%foldr_max_ge. lia.
Qed.

(** X19: [add_product] never touches a product that is in the table, and it
    keeps the names of the products pairwise distinct: whatever the form
    holds, a product is added only under a fresh id and a name no product
    has. *)
Theorem add_product_keeps_names_distinct int_of_text float_of_text form db :
  names_distinct (products db) →
  names_distinct (products (add_product int_of_text float_of_text form db).1)
  ∧ orders (add_product int_of_text float_of_text form db).1 = orders db
  ∧ ∀ k p, products db !! k = Some p →
           products (add_product int_of_text float_of_text form db).1 !! k = Some p.
Proof.
  intros Hnames. unfold add_product.
  destruct (field form "product_name") as [nm|]; [|done].
  destruct (field form "price") as [pt|]; [|done].
  destruct (field form "stock_level") as [st|]; [|done].
  destruct (float_of_text pt) as [pr|]; [|done].
  destruct (int_of_text st) as [stock|]; [|done].
  destruct (name_taken nm (products db)) eqn:Htaken; [done|]. simpl.
  pose proof (next_rowid_fresh (products db)) as Hfresh.
  assert (Hnew : ∀ k p, products db !! k = Some p → name p ≠ nm).
  { intros k p Hk Hn. apply not_true_iff_false in Htaken. apply Htaken.
    apply Is_true_true, name_taken_spec. eauto. }
  split; [|split; [done|]].
  - intros i j p q [[-> <-]|[Hi Hp]]%lookup_insert_Some
      [[<- <-]|[Hj Hq]]%lookup_insert_Some Heq; simpl in *; try done.
    + by destruct (Hnew _ _ Hq).
    + by destruct (Hnew _ _ Hp).
    + by eapply Hnames.
  - intros k p Hk. rewrite lookup_insert_ne; [done|]. congruence.
Qed.

Lemma add_product_keeps_names_distinct_witness :
  names_distinct
    (products (add_product (λ _, Some 3) (λ _, Some (4 # 1))
                 {["product_name" := "bolt"; "price" := "4"; "stock_level" := "3"]}
                 shop).1)
  ∧ orders (add_product (λ _, Some 3) (λ _, Some (4 # 1))
              {["product_name" := "bolt"; "price" := "4"; "stock_level" := "3"]}
              shop).1 = orders shop
  ∧ ∀ k p, products shop !! k = Some p →
           products (add_product (λ _, Some 3) (λ _, Some (4 # 1))
                       {["product_name" := "bolt"; "price" := "4"; "stock_level" := "3"]}
                       shop).1 !! k = Some p.
Proof.
  apply (add_product_keeps_names_distinct (λ _, Some 3) (λ _, Some (4 # 1))
           {["product_name" := "bolt"; "price" := "4"; "stock_level" := "3"]} shop).
  intros i j p q Hi Hj _. simpl in Hi, Hj.
  apply lookup_singleton_Some in Hi as [<- _].
  apply lookup_singleton_Some in Hj as [<- _].
  reflexivity.
Defined.

Example add_product_example :
  add_product (λ _, Some 3) (λ _, Some (4 # 1))
    {["product_name" := "bolt"; "price" := "4"; "stock_level" := "3"]} shop
  = (Database {[1 := Product "widget" (2 # 1) 5; 2 := Product "bolt" (4 # 1) 3]}
              (orders shop),
     [ProductAdded "bolt"]).
Proof. vm_compute. reflexivity. Qed.
